(** * WalletBackend: the encrypted wallet container and its lifecycle

    A shallow embedding of [src/walletbackend/WalletBackend.cpp].

    The wallet backend owns the encrypted wallet file, the sub-wallet
    registry, the wallet synchronizer and the cache of prepared
    transactions.  The registry ([SubWallets]), the synchronizer
    ([WalletSynchronizer]), the daemon client ([Nigel]), the transaction
    builder ([SendTransaction::...]), the cryptographic primitives
    (CryptoPP, [Crypto::...]) and rapidjson are collaborators whose code
    lives elsewhere: they appear here as interfaces (type classes and
    section variables), and every function of [WalletBackend.cpp] is
    written against those interfaces, statement by statement.

    Conventions:
    - a [uint64_t] is an [N]; the file only compares and copies them;
    - a byte buffer ([std::vector<char>], [std::string] holding binary
      data, [byte[16]]) is a [list byte];
    - an [Error] is its error code: [if (error)] is [is_error], [!error]
      is its negation, and [==] compares codes;
    - a function that mutates [*this] returns the new object; a function
      that touches the disk takes and returns a [FileSystem];
    - random bytes are an explicit argument of the function that draws
      them;
    - [pauseSynchronizerToRunFunction f] pauses the synchronizer thread,
      runs [f] and resumes; with the synchronizer paused the function
      runs alone, and it is embedded as the body of [f]. *)

From Stdlib Require Import NArith Lia Strings.Byte Strings.Ascii Strings.String.
From stdpp Require Import base decidable option list gmap strings.

Local Open Scope N_scope.

(** ** Error codes ([errors/Errors.h]) *)

Inductive Error : Set :=
  | SUCCESS
  | FILENAME_NON_EXISTENT
  | INVALID_WALLET_FILENAME
  | NOT_A_WALLET_FILE
  | WALLET_FILE_CORRUPTED
  | WRONG_PASSWORD
  | UNSUPPORTED_WALLET_FILE_FORMAT_VERSION
  | WALLET_FILE_ALREADY_EXISTS
  | KEYS_NOT_DETERMINISTIC
  | PREPARED_TRANSACTION_EXPIRED
  | PREPARED_TRANSACTION_NOT_FOUND
  | TX_PRIVATE_KEY_NOT_FOUND
  (* the remaining codes, which this file only passes through *)
  | OTHER_ERROR (code : N).

#[global] Instance Error_eq_dec : EqDecision Error.
Proof. solve_decision. Defined.

(** [Error::operator bool]: true when the code is not [SUCCESS]. *)
Definition is_error (e : Error) : bool :=
  match e with SUCCESS => false | _ => true end.

(** ** Byte buffers *)

Abbreviation bytes := (list byte).

#[global] Instance byte_eq_decision : EqDecision byte := Byte.byte_eq_dec.

(** [std::string::c_str()] handed to a function that reads a C string,
    and a [std::string] built from a [const char] pointer: the bytes
    before the first NUL. *)
Fixpoint c_str (s : bytes) : bytes :=
  match s with
  | [] => []
  | b :: s' => if decide (b = x00) then [] else b :: c_str s'
  end.

(** [std::equal(first1, last1, first2)]: walks the first range and
    compares it with what the second holds at the same positions.  The
    callers check the sizes first; a second range that ends early
    compares unequal here. *)
Fixpoint std_equal (identifier data : bytes) : bool :=
  match identifier with
  | [] => true
  | i :: identifier' =>
      match data with
      | [] => false
      | d :: data' => bool_decide (i = d) && std_equal identifier' data'
      end
  end.

(** [hasMagicIdentifier]: checks that [data] starts with [identifier]
    and erases it.  The buffer is passed by reference; the function
    returns the error together with the buffer as it leaves it. *)
Definition hasMagicIdentifier
    (data identifier : bytes) (tooSmallError wrongIdentifierError : Error)
    : Error * bytes :=
  if (length data <? length identifier)%nat then (tooSmallError, data)
  else if negb (std_equal identifier data) then (wrongIdentifierError, data)
  else (SUCCESS, drop (length identifier) data).

(** ** JSON documents ([rapidjson::Document]) *)

#[warnings="-register-all"] Inductive Json : Type :=
  | JNull
  | JBool (b : bool)
  | JUint (n : N)
  | JString (s : string)
  | JArray (items : list Json)
  | JObject (members : list (string * Json)).

(** [FindMember]: the first member with that name. *)
Fixpoint findMember (key : string) (members : list (string * Json)) : option Json :=
  match members with
  | [] => None
  | (k, v) :: rest => if decide (k = key) then Some v else findMember key rest
  end.

(** Modelled from the spec: the helpers of [JsonHelper.h], which is not
    among the sources.  The document "has top-level fields
    [walletFileFormatVersion] (integer), [subWallets] (object),
    [walletSynchronizer] (object)"; a helper returns the member of that
    name and type, and throws [std::invalid_argument] ([None]) when the
    member is missing or of another type. *)
Definition getJsonValue (j : Json) (key : string) : option Json :=
  match j with
  | JObject members => findMember key members
  | _ => None
  end.

Definition getUint64FromJSON (j : Json) (key : string) : option N :=
  match getJsonValue j key with
  | Some (JUint n) => Some n
  | _ => None
  end.

Definition getObjectFromJSON (j : Json) (key : string) : option Json :=
  match getJsonValue j key with
  | Some (JObject members) => Some (JObject members)
  | _ => None
  end.

(** ** The file system seen through [std::ifstream] / [std::ofstream] *)

Record FileSystem : Type := mkFileSystem {
  (* the files that exist, with their contents; a file that exists can be
     opened for reading *)
  fs_files : gmap string bytes;
  (* the paths [std::ofstream] can open: the directory exists and the
     process may write there *)
  fs_writable : string → bool;
}.

(** [std::ifstream(filename)] converts to true when the file opened. *)
Definition ifstream_good (fs : FileSystem) (filename : string) : bool :=
  bool_decide (is_Some (fs_files fs !! filename)).

(** Reading the whole stream into a buffer. *)
Definition ifstream_read (fs : FileSystem) (filename : string) : option bytes :=
  fs_files fs !! filename.

(** [std::ofstream(filename)]: creates the file, or truncates the one
    that exists; [None] when the stream could not be opened. *)
Definition ofstream_open (fs : FileSystem) (filename : string) : option FileSystem :=
  if fs_writable fs filename
  then Some (mkFileSystem (<[filename := []]> (fs_files fs)) (fs_writable fs))
  else None.

(** Writing [data] at the end of an open stream. *)
Definition ofstream_write (fs : FileSystem) (filename : string) (data : bytes) : FileSystem :=
  mkFileSystem
    (<[filename := default [] (fs_files fs !! filename) ++ data]> (fs_files fs))
    (fs_writable fs).

(** [fs::remove]. *)
Definition fs_remove (fs : FileSystem) (filename : string) : FileSystem :=
  mkFileSystem (delete filename (fs_files fs)) (fs_writable fs).

(** [checkNewWalletFilename]. *)
Definition checkNewWalletFilename (fs : FileSystem) (filename : string)
    : Error * FileSystem :=
  (* Check the file doesn't exist *)
  if ifstream_good fs filename then (WALLET_FILE_ALREADY_EXISTS, fs)
  else
    (* Check we can open the file *)
    match ofstream_open fs filename with
    | None => (INVALID_WALLET_FILENAME, fs)
    | Some fs' =>
        (* Don't leave random files around *)
        (SUCCESS, fs_remove fs' filename)
    end.

(** ** Collaborator interfaces *)

(** [walletbackend/Constants.h]. *)
Class Constants : Type := {
  IS_A_WALLET_IDENTIFIER : bytes;
  IS_CORRECT_PASSWORD_IDENTIFIER : bytes;
  PBKDF2_ITERATIONS : N;
  WALLET_FILE_FORMAT_VERSION : N;
}.

(** CryptoPP: PBKDF2-HMAC-SHA256 and AES in CBC mode behind a
    [StreamTransformationFilter], which pads on encryption and throws a
    [CryptoPP::Exception] ([None]) when decryption or unpadding fails. *)
Class CryptoPP : Type := {
  (* derived length, password, salt, iterations *)
  PBKDF2_DeriveKey : nat → string → bytes → N → bytes;
  (* key, iv, data *)
  CBC_AES_Encryption : bytes → bytes → bytes → bytes;
  CBC_AES_Decryption : bytes → bytes → bytes → option bytes;
}.

(** rapidjson: the text a [Writer<StringBuffer>] holds for a value, and
    [Document::Parse] ([None] when [HasParseError]). *)
Class RapidJson : Type := {
  Writer_GetString : Json → bytes;
  Document_Parse : bytes → option Json;
}.

(** [crypto/crypto.h], [utilities/], [mnemonics/] and
    [errors/ValidateParameters.h]. *)
Class Crypto (SecretKey PublicKey : Type) : Type := {
  (* the key pair drawn from the given random bytes *)
  generate_keys : bytes → PublicKey * SecretKey;
  generateViewFromSpend : SecretKey → SecretKey;
  SecretKey_default : SecretKey;
  PublicKey_default : PublicKey;
  privateKeysToAddress : SecretKey → SecretKey → string;
  addressToKeys : string → PublicKey * PublicKey;
  PrivateKeyToMnemonic : SecretKey → string;
  timestampToScanHeight : N → N;
  validatePrivateKey : SecretKey → Error;
  validatePublicKey : PublicKey → Error;
  (* addresses, allowIntegratedAddresses *)
  validateAddresses : list string → bool → Error;
}.

(** [subwallets/SubWallets.h]: the registry.  A method that mutates the
    registry returns the new registry next to its result.  [fromJSON]
    throws [std::invalid_argument] ([None]) on a malformed object. *)
Class SubWalletsOps (SecretKey PublicKey Transaction SubWallets : Type) : Type := {
  (* privateSpendKey, privateViewKey, address, scanHeight, newWallet *)
  SubWallets_new : SecretKey → SecretKey → string → N → bool → SubWallets;
  (* (startHeight, startTimestamp) *)
  sw_getMinInitialSyncStart : SubWallets → N * N;
  sw_getPrivateViewKey : SubWallets → SecretKey;
  (* (error, privateSpendKey, walletIndex) *)
  sw_getPrivateSpendKey : SubWallets → PublicKey → Error * SecretKey * N;
  sw_getTransactions : SubWallets → list Transaction;
  sw_reset : SubWallets → N → SubWallets;
  sw_rewind : SubWallets → N → SubWallets;
  sw_importSubWallet : SubWallets → SecretKey → N → (Error * string) * SubWallets;
  sw_importSubWalletIndex : SubWallets → N → N → (Error * string) * SubWallets;
  sw_importViewSubWallet : SubWallets → PublicKey → N → (Error * string) * SubWallets;
  sw_toJSON : SubWallets → Json;
  sw_fromJSON : Json → option SubWallets;
}.

(** [walletbackend/WalletSynchronizer.h], the part that is written to
    the wallet file (the synchronizer checkpoint). *)
Class WalletSynchronizerOps (SecretKey WalletSynchronizer : Type) : Type := {
  (* startHeight, startTimestamp, privateViewKey *)
  WalletSynchronizer_new : N → N → SecretKey → WalletSynchronizer;
  ws_getCurrentScanHeight : WalletSynchronizer → N;
  ws_reset : WalletSynchronizer → N → WalletSynchronizer;
  ws_rewind : WalletSynchronizer → N → WalletSynchronizer;
  ws_setEndScanHeight : WalletSynchronizer → N → WalletSynchronizer;
  ws_toJSON : WalletSynchronizer → Json;
  ws_fromJSON : Json → option WalletSynchronizer;
}.

(** [walletbackend/Transfer.h] ([SendTransaction::...]) and the daemon
    client.  Building and relaying talk to the daemon and record the
    transaction in the registry: both come back with the result. *)
Class SendTransactionOps
    (Hash PreparedTransactionInfo FeeType Nigel SubWallets : Type) : Type := {
  (* daemonHost, daemonPort, daemonSSL *)
  Nigel_new : string → N → bool → Nigel;
  Hash_default : Hash;
  transactionHash : PreparedTransactionInfo → Hash;
  SendTransaction_sendPreparedTransaction :
    PreparedTransactionInfo → Nigel → SubWallets →
    (Error * Hash) * Nigel * SubWallets;
  (* destination, amount, paymentID, daemon, subWallets, sendAll,
     sendTransaction, deadline *)
  SendTransaction_sendTransactionBasic :
    string → N → string → Nigel → SubWallets → bool → bool → N →
    (Error * Hash * PreparedTransactionInfo) * Nigel * SubWallets;
  (* destinations, mixin, fee, paymentID, subWalletsToTakeFrom,
     changeAddress, daemon, subWallets, unlockTime, extraData, sendAll,
     sendTransaction, deadline *)
  SendTransaction_sendTransactionAdvanced :
    list (string * N) → N → FeeType → string → list string → string →
    Nigel → SubWallets → N → bytes → bool → bool → N →
    (Error * Hash * PreparedTransactionInfo) * Nigel * SubWallets;
}.

Section WalletBackend.

Context {SecretKey PublicKey Hash Transaction PreparedTransactionInfo
         FeeType Nigel SubWallets WalletSynchronizer : Type}.
Context `{Countable Hash} `{EqDecision SecretKey}.
Context `{Constants} `{CryptoPP} `{RapidJson}.
Context `{!Crypto SecretKey PublicKey}.
Context `{!SubWalletsOps SecretKey PublicKey Transaction SubWallets}.
Context `{!WalletSynchronizerOps SecretKey WalletSynchronizer}.
Context `{!SendTransactionOps Hash PreparedTransactionInfo FeeType Nigel SubWallets}.

(** [WalletTypes::Transaction::blockHeight]. *)
Variable blockHeight : Transaction → N.

(** ** The wallet object

    The members the functions below read and write.  The event
    handler, the thread count and the mutex carry no wallet state. *)
Record WalletBackend : Type := mkWalletBackend {
  m_filename : string;
  m_password : string;
  m_daemon : Nigel;
  m_subWallets : SubWallets;
  m_walletSynchronizer : WalletSynchronizer;
  m_preparedTransactions : gmap Hash PreparedTransactionInfo;
}.

Definition set_password (w : WalletBackend) (password : string) : WalletBackend :=
  mkWalletBackend (m_filename w) password (m_daemon w) (m_subWallets w)
    (m_walletSynchronizer w) (m_preparedTransactions w).

Definition set_daemon (w : WalletBackend) (daemon : Nigel) : WalletBackend :=
  mkWalletBackend (m_filename w) (m_password w) daemon (m_subWallets w)
    (m_walletSynchronizer w) (m_preparedTransactions w).

Definition set_subWallets (w : WalletBackend) (sw : SubWallets) : WalletBackend :=
  mkWalletBackend (m_filename w) (m_password w) (m_daemon w) sw
    (m_walletSynchronizer w) (m_preparedTransactions w).

Definition set_walletSynchronizer (w : WalletBackend) (ws : WalletSynchronizer)
    : WalletBackend :=
  mkWalletBackend (m_filename w) (m_password w) (m_daemon w) (m_subWallets w)
    ws (m_preparedTransactions w).

Definition set_preparedTransactions (w : WalletBackend)
    (cache : gmap Hash PreparedTransactionInfo) : WalletBackend :=
  mkWalletBackend (m_filename w) (m_password w) (m_daemon w) (m_subWallets w)
    (m_walletSynchronizer w) cache.

(** ** The encrypted container *)

(** The document [unsafeToJSON] writes. *)
Definition walletDocument (sw : SubWallets) (ws : WalletSynchronizer) : Json :=
  JObject [("walletFileFormatVersion"%string, JUint WALLET_FILE_FORMAT_VERSION);
           ("subWallets"%string, sw_toJSON sw);
           ("walletSynchronizer"%string, ws_toJSON ws)].

(** [unsafeToJSON]: [sb.GetString()] is a C string, from which the
    returned [std::string] is built. *)
Definition unsafeToJSON (w : WalletBackend) : bytes :=
  c_str (Writer_GetString (walletDocument (m_subWallets w) (m_walletSynchronizer w))).

(** The bytes [saveWalletJSONToDisk] sends to the file: the wallet
    identifier, the salt in clear, and the encryption of the password
    identifier followed by the JSON text. *)
Definition encryptWalletJSON (walletJSON : bytes) (password : string) (salt : bytes)
    : bytes :=
  let walletData := IS_CORRECT_PASSWORD_IDENTIFIER ++ walletJSON in
  let key := PBKDF2_DeriveKey 16 password salt PBKDF2_ITERATIONS in
  CBC_AES_Encryption key salt walletData.

(** [saveWalletJSONToDisk]; [salt] is what [Random::randomBytes(16, salt)]
    drew. *)
Definition saveWalletJSONToDisk (fs : FileSystem)
    (walletJSON : bytes) (filename password : string) (salt : bytes)
    : Error * FileSystem :=
  let encryptedData := encryptWalletJSON walletJSON password salt in
  match ofstream_open fs filename with
  | None => (INVALID_WALLET_FILENAME, fs)
  | Some fs =>
      let fs := ofstream_write fs filename IS_A_WALLET_IDENTIFIER in
      let fs := ofstream_write fs filename salt in
      let fs := ofstream_write fs filename encryptedData in
      (SUCCESS, fs)
  end.

(** [unsafeSave] and [save]. *)
Definition unsafeSave (w : WalletBackend) (fs : FileSystem) (salt : bytes)
    : Error * FileSystem :=
  saveWalletJSONToDisk fs (unsafeToJSON w) (m_filename w) (m_password w) salt.

Definition save (w : WalletBackend) (fs : FileSystem) (salt : bytes)
    : Error * FileSystem :=
  unsafeSave w fs salt.

(** [fromJSON(const rapidjson::Document &)]: the registry and the
    synchronizer read from the document.  The outer [option] is [None]
    when a helper or a collaborator throws [std::invalid_argument]. *)
Definition fromJSON (j : Json) : option (Error + SubWallets * WalletSynchronizer) :=
  match getUint64FromJSON j "walletFileFormatVersion" with
  | None => None
  | Some version =>
      if negb (version =? WALLET_FILE_FORMAT_VERSION)
      then Some (inl UNSUPPORTED_WALLET_FILE_FORMAT_VERSION)
      else
        match getObjectFromJSON j "subWallets" with
        | None => None
        | Some jsw =>
            match sw_fromJSON jsw with
            | None => None
            | Some sw =>
                match getObjectFromJSON j "walletSynchronizer" with
                | None => None
                | Some jws =>
                    match ws_fromJSON jws with
                    | None => None
                    | Some ws => Some (inr (sw, ws))
                    end
                end
            end
        end
  end.

(** [openWallet] from the buffer read from the file up to the call of
    [fromJSON]: the decoding of the container. *)
Definition decodeWallet (buffer : bytes) (password : string)
    : Error + SubWallets * WalletSynchronizer :=
  let '(error, buffer) :=
    hasMagicIdentifier buffer IS_A_WALLET_IDENTIFIER NOT_A_WALLET_FILE NOT_A_WALLET_FILE in
  if is_error error then inl error
  else
    (* Check the file is large enough for the salt *)
    if (length buffer <? 16)%nat then inl WALLET_FILE_CORRUPTED
    else
      let salt := take 16 buffer in
      let buffer := drop 16 buffer in
      let key := PBKDF2_DeriveKey 16 password salt PBKDF2_ITERATIONS in
      match CBC_AES_Decryption key salt buffer with
      | None => inl WRONG_PASSWORD
      | Some decryptedData =>
          let '(error, decryptedData) :=
            hasMagicIdentifier decryptedData IS_CORRECT_PASSWORD_IDENTIFIER
              WALLET_FILE_CORRUPTED WRONG_PASSWORD in
          if is_error error then inl error
          else
            match Document_Parse (c_str decryptedData) with
            | None => inl WALLET_FILE_CORRUPTED
            | Some walletJson =>
                match fromJSON walletJson with
                | None => inl WALLET_FILE_CORRUPTED
                | Some r => r
                end
            end
      end.

(** [openWallet]: reads the file, decodes it, and completes the object
    as the seven-argument [fromJSON] does.  [init] on a loaded
    synchronizer only rebinds the daemon, the event handler and the
    thread count.  The object returned next to an error is not
    modelled. *)
Definition openWallet (fs : FileSystem) (filename password : string)
    (daemonHost : string) (daemonPort : N) (daemonSSL : bool)
    : Error * option WalletBackend :=
  match ifstream_read fs filename with
  | None => (FILENAME_NON_EXISTENT, None)
  | Some buffer =>
      match decodeWallet buffer password with
      | inl error => (error, None)
      | inr (sw, ws) =>
          (SUCCESS,
           Some (mkWalletBackend filename password
                   (Nigel_new daemonHost daemonPort daemonSSL) sw ws ∅))
      end
  end.

(** ** Construction *)

(** The standard constructor followed by [init]: the registry is built
    from the keys, and [init] finds no synchronizer loaded from a file
    and creates one from the registry's initial sync start. *)
Definition newWalletBackend (filename password : string)
    (privateSpendKey privateViewKey : SecretKey) (scanHeight : N) (newWallet : bool)
    (daemonHost : string) (daemonPort : N) (daemonSSL : bool) : WalletBackend :=
  (* Generate the address from the two private keys *)
  let address := privateKeysToAddress privateSpendKey privateViewKey in
  let subWallets :=
    SubWallets_new privateSpendKey privateViewKey address scanHeight newWallet in
  (* init() *)
  let '(startHeight, startTimestamp) := sw_getMinInitialSyncStart subWallets in
  let walletSynchronizer :=
    WalletSynchronizer_new startHeight startTimestamp (sw_getPrivateViewKey subWallets) in
  mkWalletBackend filename password (Nigel_new daemonHost daemonPort daemonSSL)
    subWallets walletSynchronizer ∅.


(** [changePassword]. *)
Definition changePassword (w : WalletBackend) (newPassword : string)
    (fs : FileSystem) (salt : bytes)
    : Error * WalletBackend * FileSystem :=
  if decide (m_password w = newPassword) then (SUCCESS, w, fs)
  else
    let w := set_password w newPassword in
    let '(error, fs) := save w fs salt in
    (error, w, fs).

(** ** Prepared transactions *)

(** [removePreparedTransaction]: [erase] returns the number of entries
    it removed. *)
Definition removePreparedTransaction (w : WalletBackend) (hash : Hash)
    : bool * WalletBackend :=
  let removed := bool_decide (is_Some (m_preparedTransactions w !! hash)) in
  (removed, set_preparedTransactions w (delete hash (m_preparedTransactions w))).

(** [sendPreparedTransaction]. *)
Definition sendPreparedTransaction (w : WalletBackend) (hash : Hash)
    : (Error * Hash) * WalletBackend :=
  match m_preparedTransactions w !! hash with
  | None => ((PREPARED_TRANSACTION_NOT_FOUND, Hash_default), w)
  | Some preparedTransaction =>
      let '(error, sentHash, daemon, subWallets) :=
        SendTransaction_sendPreparedTransaction preparedTransaction
          (m_daemon w) (m_subWallets w) in
      let w := set_subWallets (set_daemon w daemon) subWallets in
      (* Remove the prepared transaction if we just sent it or it's no
         longer valid *)
      let w :=
        if bool_decide (error = PREPARED_TRANSACTION_EXPIRED) || negb (is_error error)
        then (removePreparedTransaction w (transactionHash preparedTransaction)).2
        else w in
      ((error, sentHash), w)
  end.

(** [sendTransactionBasic]. *)
Definition sendTransactionBasic (w : WalletBackend)
    (destination : string) (amount : N) (paymentID : string)
    (sendAll sendTransaction : bool) (deadline : N)
    : (Error * Hash * PreparedTransactionInfo) * WalletBackend :=
  let '(error, hash, preparedTransaction, daemon, subWallets) :=
    SendTransaction_sendTransactionBasic destination amount paymentID
      (m_daemon w) (m_subWallets w) sendAll sendTransaction deadline in
  let w := set_subWallets (set_daemon w daemon) subWallets in
  let w :=
    if negb sendTransaction && negb (is_error error)
    then set_preparedTransactions w
           (<[hash := preparedTransaction]> (m_preparedTransactions w))
    else w in
  ((error, hash, preparedTransaction), w).


(** ** Resetting and rewinding *)

(** [reset]. *)
Definition reset (w : WalletBackend) (scanHeight timestamp : N)
    (fs : FileSystem) (salt : bytes) : WalletBackend * FileSystem :=
  (* we need a fixed scan height to cut transactions from *)
  let '(scanHeight, timestamp) :=
    if negb (timestamp =? 0) then (timestampToScanHeight timestamp, 0)
    else (scanHeight, timestamp) in
  (* Empty the sync status and reset the start height *)
  let w := set_walletSynchronizer w (ws_reset (m_walletSynchronizer w) scanHeight) in
  (* Reset transactions, inputs, etc *)
  let w := set_subWallets w (sw_reset (m_subWallets w) scanHeight) in
  (* Save the resetted wallet *)
  (w, (unsafeSave w fs salt).2).

(** [rewind]. *)
Definition rewind (w : WalletBackend) (scanHeight timestamp : N)
    (fs : FileSystem) (salt : bytes) : WalletBackend * FileSystem :=
  let '(scanHeight, timestamp) :=
    if negb (timestamp =? 0) then (timestampToScanHeight timestamp, 0)
    else (scanHeight, timestamp) in
  (* Empty the sync status and rewind the start height *)
  let w := set_walletSynchronizer w (ws_rewind (m_walletSynchronizer w) scanHeight) in
  (* rewind transactions, inputs, etc *)
  let w := set_subWallets w (sw_rewind (m_subWallets w) scanHeight) in
  (w, (unsafeSave w fs salt).2).

(** [scanRange]. *)
Definition scanRange (w : WalletBackend) (scanHeight endScanHeight : N)
    (fs : FileSystem) (salt : bytes) : WalletBackend * FileSystem :=
  let w := set_walletSynchronizer w (ws_rewind (m_walletSynchronizer w) scanHeight) in
  let w := set_subWallets w (sw_rewind (m_subWallets w) scanHeight) in
  let w :=
    set_walletSynchronizer w (ws_setEndScanHeight (m_walletSynchronizer w) endScanHeight) in
  (w, (unsafeSave w fs salt).2).

(** ** Importing sub-wallets *)

(** [importSubWallet(privateSpendKey, scanHeight)]. *)
Definition importSubWallet (w : WalletBackend)
    (privateSpendKey : SecretKey) (scanHeight : N)
    : (Error * string) * WalletBackend :=
  let error := validatePrivateKey privateSpendKey in
  if decide (error ≠ SUCCESS) then ((error, EmptyString), w)
  else
    (* Add the sub wallet *)
    let '(error, address, subWallets) :=
      sw_importSubWallet (m_subWallets w) privateSpendKey scanHeight in
    let w := set_subWallets w subWallets in
    let w :=
      if negb (is_error error) then
        let currentHeight := ws_getCurrentScanHeight (m_walletSynchronizer w) in
        if scanHeight <=? currentHeight then
          (* Empty the sync status and reset the start height *)
          let w :=
            set_walletSynchronizer w (ws_reset (m_walletSynchronizer w) scanHeight) in
          (* Reset transactions, inputs, etc *)
          set_subWallets w (sw_rewind (m_subWallets w) scanHeight)
        else w
      else w in
    ((error, address), w).

(** [importSubWallet(walletIndex, scanHeight)]. *)
Definition importSubWalletIndex (w : WalletBackend) (walletIndex scanHeight : N)
    : (Error * string) * WalletBackend :=
  let '(error, address, subWallets) :=
    sw_importSubWalletIndex (m_subWallets w) walletIndex scanHeight in
  let w := set_subWallets w subWallets in
  let w :=
    if negb (is_error error) then
      let currentHeight := ws_getCurrentScanHeight (m_walletSynchronizer w) in
      if scanHeight <=? currentHeight then
        let w :=
          set_walletSynchronizer w (ws_reset (m_walletSynchronizer w) scanHeight) in
        set_subWallets w (sw_reset (m_subWallets w) scanHeight)
      else w
    else w in
  ((error, address), w).

(** [importViewSubWallet]. *)
Definition importViewSubWallet (w : WalletBackend)
    (publicSpendKey : PublicKey) (scanHeight : N)
    : (Error * string) * WalletBackend :=
  let error := validatePublicKey publicSpendKey in
  if decide (error ≠ SUCCESS) then ((error, EmptyString), w)
  else
    let '(error, address, subWallets) :=
      sw_importViewSubWallet (m_subWallets w) publicSpendKey scanHeight in
    let w := set_subWallets w subWallets in
    let w :=
      if negb (is_error error) then
        let currentHeight := ws_getCurrentScanHeight (m_walletSynchronizer w) in
        if scanHeight <=? currentHeight then
          let w :=
            set_walletSynchronizer w (ws_reset (m_walletSynchronizer w) scanHeight) in
          set_subWallets w (sw_reset (m_subWallets w) scanHeight)
        else w
      else w in
    ((error, address), w).

(** ** Keys and history *)

(** [getPrivateViewKey]. *)
Definition getPrivateViewKey (w : WalletBackend) : SecretKey :=
  sw_getPrivateViewKey (m_subWallets w).

(** [getSpendKeys]. *)
Definition getSpendKeys (w : WalletBackend) (address : string)
    : Error * PublicKey * SecretKey * N :=
  let allowIntegratedAddresses := false in
  let error := validateAddresses [address] allowIntegratedAddresses in
  if decide (error ≠ SUCCESS) then (error, PublicKey_default, SecretKey_default, 0)
  else
    let '(publicSpendKey, publicViewKey) := addressToKeys address in
    let '(success, privateSpendKey, walletIndex) :=
      sw_getPrivateSpendKey (m_subWallets w) publicSpendKey in
    (success, publicSpendKey, privateSpendKey, walletIndex).

(** [getMnemonicSeedForAddress]. *)
Definition getMnemonicSeedForAddress (w : WalletBackend) (address : string)
    : Error * string :=
  let allowIntegratedAddresses := false in
  let error := validateAddresses [address] allowIntegratedAddresses in
  if decide (error ≠ SUCCESS) then (error, EmptyString)
  else
    let privateViewKey := getPrivateViewKey w in
    let '(error, publicSpendKey, privateSpendKey, walletIndex) :=
      getSpendKeys w address in
    if is_error error then (error, EmptyString)
    else
      (* Derive the view key from the spend key, and check if it
         matches the actual view key *)
      let derivedPrivateViewKey := generateViewFromSpend privateSpendKey in
      if decide (derivedPrivateViewKey ≠ privateViewKey)
      then (KEYS_NOT_DETERMINISTIC, EmptyString)
      else (SUCCESS, PrivateKeyToMnemonic privateSpendKey).

(** [getTransactions]. *)
Definition getTransactions (w : WalletBackend) : list Transaction :=
  sw_getTransactions (m_subWallets w).

(** [getTransactionsRange]: [std::copy_if] with the predicate
    [tx.blockHeight >= startHeight && tx.blockHeight < endHeight]. *)
Definition getTransactionsRange (w : WalletBackend) (startHeight endHeight : N)
    : list Transaction :=
  List.filter
    (λ tx, (startHeight <=? blockHeight tx) && (blockHeight tx <? endHeight))
    (getTransactions w).

(** ** Notions used to state the properties *)

(** The bytes of a wallet file: what [saveWalletJSONToDisk] copies to
    the stream, in order. *)
Definition encodeWallet (walletJSON : bytes) (password : string) (salt : bytes)
    : bytes :=
  IS_A_WALLET_IDENTIFIER ++ salt ++ encryptWalletJSON walletJSON password salt.

(** Decryption under the same key and iv undoes the encryption of
    [data]. *)
Definition cipher_inverts (key iv data : bytes) : Prop :=
  CBC_AES_Decryption key iv (CBC_AES_Encryption key iv data) = Some data.

(** Parsing the text written for [j] gives [j] back. *)
Definition json_text_roundtrips (j : Json) : Prop :=
  Document_Parse (c_str (Writer_GetString j)) = Some j.

(** The registry writes an object from which it reads itself back. *)
Definition subWallets_roundtrips (sw : SubWallets) : Prop :=
  ∃ members, sw_toJSON sw = JObject members
             ∧ sw_fromJSON (JObject members) = Some sw.

(** The same for the synchronizer checkpoint. *)
Definition walletSynchronizer_roundtrips (ws : WalletSynchronizer) : Prop :=
  ∃ members, ws_toJSON ws = JObject members
             ∧ ws_fromJSON (JObject members) = Some ws.

(** Every cached transaction is stored under its own hash. *)
Definition keyed_by_hash (cache : gmap Hash PreparedTransactionInfo) : Prop :=
  map_Forall (λ hash preparedTransaction, transactionHash preparedTransaction = hash)
    cache.

#[global] Instance keyed_by_hash_dec cache : Decision (keyed_by_hash cache).
Proof. unfold keyed_by_hash. apply _. Defined.

#[global] Instance cipher_inverts_dec key iv data : Decision (cipher_inverts key iv data).
Proof. unfold cipher_inverts. apply _. Defined.

(** The rescan step shared by the three imports: the synchronizer after
    an import that returned [error], given the height it had reached. *)
Definition synchronizerAfterImport (ws : WalletSynchronizer) (error : Error)
    (scanHeight : N) : WalletSynchronizer :=
  if negb (is_error error) && (scanHeight <=? ws_getCurrentScanHeight ws)
  then ws_reset ws scanHeight else ws.

End WalletBackend.

(** ** A reference implementation of the collaborators

    Small executable stand-ins for the interfaces above, on which the
    wallet functions run: keys, hashes and heights are numbers, the
    registry is a list of key pairs and transactions, the daemon is the
    list of the answers it will give, and the cipher masks and pads. *)
Module Toy.

(** *** Text for JSON values: a tagged prefix format *)

Fixpoint print_bits (p : positive) : bytes :=
  match p with
  | xH => [x31]
  | xO p' => x30 :: print_bits p'
  | xI p' => x31 :: print_bits p'
  end.

Definition print_N (n : N) : bytes :=
  match n with
  | N0 => [x3b]
  | Npos p => print_bits p ++ [x3b]
  end.

Fixpoint parse_N (s : bytes) : option (N * bytes) :=
  match s with
  | x3b :: r => Some (0, r)
  | x30 :: r => match parse_N r with Some (n, r') => Some (2 * n, r') | None => None end
  | x31 :: r => match parse_N r with Some (n, r') => Some (2 * n + 1, r') | None => None end
  | _ => None
  end.

Definition print_string (str : string) : bytes :=
  String.list_byte_of_string str ++ [x22].

Fixpoint parse_chars (s : bytes) : option (bytes * bytes) :=
  match s with
  | [] => None
  | x22 :: r => Some ([], r)
  | b :: r => match parse_chars r with Some (cs, r') => Some (b :: cs, r') | None => None end
  end.

Definition parse_string (s : bytes) : option (string * bytes) :=
  match parse_chars s with
  | Some (cs, r) => Some (String.string_of_list_byte cs, r)
  | None => None
  end.

Fixpoint print (j : Json) : bytes :=
  match j with
  | JNull => [x6e]
  | JBool true => [x74]
  | JBool false => [x66]
  | JUint n => x75 :: print_N n
  | JString str => x73 :: print_string str
  | JArray items =>
      x5b :: (fix go (l : list Json) : bytes :=
                match l with
                | [] => [x5d]
                | v :: l' => print v ++ go l'
                end) items
  | JObject members =>
      x7b :: (fix go (l : list (string * Json)) : bytes :=
                match l with
                | [] => [x7d]
                | (k, v) :: l' => print_string k ++ print v ++ go l'
                end) members
  end.

Fixpoint parse_value (fuel : nat) (s : bytes) : option (Json * bytes) :=
  match fuel with
  | O => None
  | S fuel =>
      match s with
      | x6e :: r => Some (JNull, r)
      | x74 :: r => Some (JBool true, r)
      | x66 :: r => Some (JBool false, r)
      | x75 :: r =>
          match parse_N r with Some (n, r') => Some (JUint n, r') | None => None end
      | x73 :: r =>
          match parse_string r with
          | Some (str, r') => Some (JString str, r')
          | None => None
          end
      | x5b :: r =>
          match parse_items fuel r with
          | Some (items, r') => Some (JArray items, r')
          | None => None
          end
      | x7b :: r =>
          match parse_members fuel r with
          | Some (members, r') => Some (JObject members, r')
          | None => None
          end
      | _ => None
      end
  end
with parse_items (fuel : nat) (s : bytes) : option (list Json * bytes) :=
  match fuel with
  | O => None
  | S fuel =>
      match s with
      | x5d :: r => Some ([], r)
      | _ =>
          match parse_value fuel s with
          | Some (v, r) =>
              match parse_items fuel r with
              | Some (vs, r') => Some (v :: vs, r')
              | None => None
              end
          | None => None
          end
      end
  end
with parse_members (fuel : nat) (s : bytes) : option (list (string * Json) * bytes) :=
  match fuel with
  | O => None
  | S fuel =>
      match s with
      | x7d :: r => Some ([], r)
      | _ =>
          match parse_string s with
          | Some (k, r) =>
              match parse_value fuel r with
              | Some (v, r') =>
                  match parse_members fuel r' with
                  | Some (ms, r'') => Some ((k, v) :: ms, r'')
                  | None => None
                  end
              | None => None
              end
          | None => None
          end
      end
  end.

Definition parse (s : bytes) : option Json :=
  match parse_value (2 * length s + 2) s with
  | Some (j, []) => Some j
  | _ => None
  end.

#[global] Instance toy_rapidjson : RapidJson :=
  {| Writer_GetString := print; Document_Parse := parse |}.

(** *** Constants, key derivation and cipher *)

#[global] Instance toy_constants : Constants :=
  {| IS_A_WALLET_IDENTIFIER := [x57; x41; x4c; x4c; x45; x54];
     IS_CORRECT_PASSWORD_IDENTIFIER := [x50; x41; x53; x53];
     PBKDF2_ITERATIONS := 500000;
     WALLET_FILE_FORMAT_VERSION := 0 |}.

Definition xor_byte (a b : byte) : byte :=
  default x00 (Byte.of_N (N.lxor (Byte.to_N a) (Byte.to_N b))).

Definition derive (len : nat) (password : string) (salt : bytes) (iterations : N)
    : bytes :=
  take len (String.list_byte_of_string password ++ salt ++ replicate len x01).

(** Pads to a multiple of 16 with [n] bytes of value [n]. *)
Definition pad (data : bytes) : bytes :=
  let n := (16 - length data mod 16)%nat in
  data ++ replicate n (default x00 (Byte.of_nat n)).

Definition unpad (data : bytes) : option bytes :=
  match last data with
  | None => None
  | Some b =>
      let n := Byte.to_nat b in
      if bool_decide (1 ≤ n ≤ 16)%nat
         && bool_decide (drop (length data - n) data = replicate n b)
      then Some (take (length data - n) data)
      else None
  end.

Definition encrypt (key iv data : bytes) : bytes :=
  (λ b, xor_byte (hd x00 key) b) <$> pad data.

Definition decrypt (key iv data : bytes) : option bytes :=
  if bool_decide (length data mod 16 = 0)%nat
  then unpad ((λ b, xor_byte (hd x00 key) b) <$> data)
  else None.

#[global] Instance toy_cryptopp : CryptoPP :=
  {| PBKDF2_DeriveKey := derive;
     CBC_AES_Encryption := encrypt;
     CBC_AES_Decryption := decrypt |}.

(** *** Keys and addresses *)

Definition publicOf (secret : N) : N := secret + 1000.

Definition addressOf (publicSpendKey : N) : string :=
  String.string_of_list_byte (x54 :: print_N publicSpendKey).

Definition keysOf (address : string) : option N :=
  match String.list_byte_of_string address with
  | x54 :: r => match parse_N r with Some (n, []) => Some n | _ => None end
  | _ => None
  end.

#[global] Instance toy_crypto : Crypto N N :=
  {| generate_keys random :=
       let secret := 1 + foldr (λ b acc, Byte.to_N b + 256 * acc) 0 random in
       (publicOf secret, secret);
     generateViewFromSpend secret := 2 * secret + 1;
     SecretKey_default := 0;
     PublicKey_default := 0;
     privateKeysToAddress spend view := addressOf (publicOf spend);
     addressToKeys address := (default 0 (keysOf address), 0);
     PrivateKeyToMnemonic secret := String.string_of_list_byte (print_N secret);
     timestampToScanHeight timestamp := timestamp / 30;
     validatePrivateKey key := if key =? 0 then OTHER_ERROR 1 else SUCCESS;
     validatePublicKey key := if key =? 0 then OTHER_ERROR 2 else SUCCESS;
     validateAddresses addresses allowIntegrated :=
       if forallb (λ a, bool_decide (is_Some (keysOf a))) addresses
       then SUCCESS else OTHER_ERROR 3 |}.

(** *** The registry *)

(** A transaction: its hash and the height of its block. *)
Definition Transaction : Type := N * N.

Definition blockHeight (tx : Transaction) : N := tx.2.

Record SubWallets : Type := mkSubWallets {
  privateViewKey : N;
  (* public and private spend key of every sub-wallet; the private key
     of a view sub-wallet is 0 *)
  spendKeys : list (N * N);
  transactions : list Transaction;
  (* (startHeight, startTimestamp) *)
  syncStart : N * N;
}.

Definition addKeys (sw : SubWallets) (publicKey privateKey scanHeight : N)
    : (Error * string) * SubWallets :=
  if existsb (λ k, k.1 =? publicKey) (spendKeys sw)
  then ((OTHER_ERROR 4, EmptyString), sw)
  else
    ((SUCCESS, addressOf publicKey),
     mkSubWallets (privateViewKey sw) (spendKeys sw ++ [(publicKey, privateKey)])
       (transactions sw) (syncStart sw)).

Definition json_of_pairs (l : list (N * N)) : Json :=
  JArray ((λ p, JArray [JUint p.1; JUint p.2]) <$> l).

Definition pair_of_json (j : Json) : option (N * N) :=
  match j with
  | JArray [JUint a; JUint b] => Some (a, b)
  | _ => None
  end.

Definition pairs_of_json (j : Json) : option (list (N * N)) :=
  match j with
  | JArray items => mapM pair_of_json items
  | _ => None
  end.

Definition subWallets_toJSON (sw : SubWallets) : Json :=
  JObject [("privateViewKey"%string, JUint (privateViewKey sw));
           ("spendKeys"%string, json_of_pairs (spendKeys sw));
           ("transactions"%string, json_of_pairs (transactions sw));
           ("syncStart"%string, json_of_pairs [syncStart sw])].

Definition subWallets_fromJSON (j : Json) : option SubWallets :=
  view ← getUint64FromJSON j "privateViewKey";
  keys ← getJsonValue j "spendKeys" ≫= pairs_of_json;
  txs ← getJsonValue j "transactions" ≫= pairs_of_json;
  start ← getJsonValue j "syncStart" ≫= pairs_of_json;
  match start with
  | [st] => Some (mkSubWallets view keys txs st)
  | _ => None
  end.

#[global] Instance toy_subWallets : SubWalletsOps N N Transaction SubWallets :=
  {| SubWallets_new spend view address scanHeight newWallet :=
       mkSubWallets view [(publicOf spend, spend)] []
         (scanHeight, if newWallet then 1 else 0);
     sw_getMinInitialSyncStart := syncStart;
     sw_getPrivateViewKey := privateViewKey;
     sw_getPrivateSpendKey sw publicKey :=
       match List.find (λ k, k.1 =? publicKey) (spendKeys sw) with
       | Some k => (SUCCESS, k.2, 0)
       | None => (OTHER_ERROR 5, 0, 0)
       end;
     sw_getTransactions := transactions;
     sw_reset sw scanHeight :=
       mkSubWallets (privateViewKey sw) (spendKeys sw) [] (scanHeight, 0);
     sw_rewind sw scanHeight :=
       mkSubWallets (privateViewKey sw) (spendKeys sw)
         (List.filter (λ tx, blockHeight tx <? scanHeight) (transactions sw))
         (syncStart sw);
     sw_importSubWallet sw privateSpendKey scanHeight :=
       addKeys sw (publicOf privateSpendKey) privateSpendKey scanHeight;
     sw_importSubWalletIndex sw walletIndex scanHeight :=
       addKeys sw (publicOf (walletIndex + 7)) (walletIndex + 7) scanHeight;
     sw_importViewSubWallet sw publicSpendKey scanHeight :=
       addKeys sw publicSpendKey 0 scanHeight;
     sw_toJSON := subWallets_toJSON;
     sw_fromJSON := subWallets_fromJSON |}.

(** *** The synchronizer checkpoint *)

Record WalletSynchronizer : Type := mkWalletSynchronizer {
  scanHeight : N;
  startTimestamp : N;
  endScanHeight : N;
}.

#[global] Instance toy_walletSynchronizer : WalletSynchronizerOps N WalletSynchronizer :=
  {| WalletSynchronizer_new startHeight timestamp viewKey :=
       mkWalletSynchronizer startHeight timestamp 0;
     ws_getCurrentScanHeight := scanHeight;
     ws_reset ws height := mkWalletSynchronizer height 0 0;
     ws_rewind ws height :=
       mkWalletSynchronizer (N.min height (scanHeight ws)) 0 (endScanHeight ws);
     ws_setEndScanHeight ws height :=
       mkWalletSynchronizer (scanHeight ws) (startTimestamp ws) height;
     ws_toJSON ws :=
       JObject [("scanHeight"%string, JUint (scanHeight ws));
                ("startTimestamp"%string, JUint (startTimestamp ws));
                ("endScanHeight"%string, JUint (endScanHeight ws))];
     ws_fromJSON j :=
       h ← getUint64FromJSON j "scanHeight";
       t ← getUint64FromJSON j "startTimestamp";
       e ← getUint64FromJSON j "endScanHeight";
       Some (mkWalletSynchronizer h t e) |}.

(** *** The daemon and the transaction builder *)

(** The daemon: the errors its next answers carry; it accepts when the
    list is exhausted. *)
Definition Nigel : Type := list Error.

(** A prepared transaction: its hash and its amount. *)
Definition PreparedTransactionInfo : Type := N * N.

Definition answer (daemon : Nigel) : Error * Nigel :=
  match daemon with
  | [] => (SUCCESS, [])
  | e :: daemon' => (e, daemon')
  end.

Definition build (amount : N) (daemon : Nigel) (sw : SubWallets)
    : (Error * N * PreparedTransactionInfo) * Nigel * SubWallets :=
  let hash := amount + 1 in
  ((answer daemon).1, hash, (hash, amount), (answer daemon).2, sw).

#[global] Instance toy_sendTransaction
    : SendTransactionOps N PreparedTransactionInfo N Nigel SubWallets :=
  {| Nigel_new host port ssl := [];
     Hash_default := 0;
     transactionHash := fst;
     SendTransaction_sendPreparedTransaction prepared daemon sw :=
       ((answer daemon).1, prepared.1, (answer daemon).2, sw);
     SendTransaction_sendTransactionBasic
       destination amount paymentID daemon sw sendAll sendTransaction deadline :=
       build amount daemon sw;
     SendTransaction_sendTransactionAdvanced
       destinations mixin fee paymentID from changeAddress daemon sw
       unlockTime extraData sendAll sendTransaction deadline :=
       build (foldr (λ d acc, d.2 + acc) 0 destinations) daemon sw |}.

(** *** Sample objects *)

Abbreviation Wallet :=
  (@WalletBackend N PreparedTransactionInfo Nigel SubWallets WalletSynchronizer _ _).

Definition sampleSubWallets : SubWallets :=
  mkSubWallets 15 [(1007, 7)] [(101, 5); (102, 10); (103, 10); (104, 15)] (0, 0).

Definition sampleSynchronizer : WalletSynchronizer :=
  mkWalletSynchronizer 20 0 0.

Definition sampleWallet : Wallet :=
  mkWalletBackend "wallet.bin" "hunter2" [] sampleSubWallets sampleSynchronizer ∅.

(** The same wallet with a view key that is not derived from the spend
    key. *)
Definition tamperedWallet : Wallet :=
  mkWalletBackend "wallet.bin" "hunter2" []
    (mkSubWallets 16 [(1007, 7)] [] (0, 0)) sampleSynchronizer ∅.

(** The sample wallet holding one prepared transaction. *)
Definition preparedWallet : Wallet :=
  mkWalletBackend "wallet.bin" "hunter2" [] sampleSubWallets sampleSynchronizer
    {[ 43 := (43, 42) ]}.

Definition sampleSalt : bytes :=
  [x01; x02; x03; x04; x05; x06; x07; x08; x09; x0a; x0b; x0c; x0d; x0e; x0f; x10].

Definition emptyDisk : FileSystem := mkFileSystem ∅ (λ _, true).

Definition readOnlyDisk : FileSystem := mkFileSystem ∅ (λ _, false).

End Toy.

(** ** The other constructors, and the terminal input of zedwallet++ *)

(** [mnemonics/Mnemonics.h], and the registry's constructor for a view
    wallet. *)
Class ImportOps (SecretKey SubWallets : Type) : Type := {
  (* (error, privateSpendKey) *)
  MnemonicToPrivateKey : string → Error * SecretKey;
  (* privateViewKey, address, scanHeight, newWallet *)
  SubWallets_newView : SecretKey → string → N → bool → SubWallets;
}.

(** [config/WalletConfig.h]. *)
Class WalletConfig : Type := {
  ticker : bytes;
  numDecimalPlaces : nat;
  minimumSend : N;
}.

(** What [std::stoull] does with a string: the value it parsed, or the
    exception it threw. *)
Inductive Stoull : Set :=
  | Parsed (value : N)
  | out_of_range
  | invalid_argument.

(** [utilities/String.h], [errors/ValidateParameters.h] and
    [std::stoull], as [GetInput.cpp] uses them.  [trim] and
    [removeCharFromString] change their argument in place; here they
    return it. *)
Class InputOps : Type := {
  trim : string → string;
  removeCharFromString : string → ascii → string;
  validatePaymentID : string → Error;
  validateHash : string → Error;
  stoull : string → Stoull;
}.

(** [std::string::find_last_of(char)]: the position of the last
    occurrence, [None] for [npos]. *)
Fixpoint find_last_of (c : byte) (s : bytes) : option nat :=
  match s with
  | [] => None
  | b :: s' =>
      match find_last_of c s' with
      | Some i => Some (S i)
      | None => if decide (b = c) then Some 0%nat else None
      end
  end.

(** [std::string::substr(pos, count)] for [pos] within the string. *)
Definition substr (pos count : nat) (s : bytes) : bytes :=
  take count (drop pos s).

(** The extension [".wallet"]. *)
Definition dotWallet : bytes := [x2e; x77; x61; x6c; x6c; x65; x74].

Section WalletImports.

Context {SecretKey PublicKey Hash Transaction PreparedTransactionInfo
         FeeType Nigel SubWallets WalletSynchronizer : Type}.
Context `{Countable Hash} `{EqDecision SecretKey}.
Context `{Constants} `{CryptoPP} `{RapidJson}.
Context `{!Crypto SecretKey PublicKey}.
Context `{!SubWalletsOps SecretKey PublicKey Transaction SubWallets}.
Context `{!WalletSynchronizerOps SecretKey WalletSynchronizer}.
Context `{!SendTransactionOps Hash PreparedTransactionInfo FeeType Nigel SubWallets}.
Context `{!ImportOps SecretKey SubWallets}.
Context `{WalletConfig} `{InputOps}.

Abbreviation Wallet :=
  (@WalletBackend Hash PreparedTransactionInfo Nigel SubWallets WalletSynchronizer _ _).

(** The view wallet constructor followed by [init]. *)
Definition newViewWalletBackend (filename password : string)
    (privateViewKey : SecretKey) (address : string) (scanHeight : N)
    (daemonHost : string) (daemonPort : N) (daemonSSL : bool) : Wallet :=
  let newWallet := false in
  let subWallets := SubWallets_newView privateViewKey address scanHeight newWallet in
  (* init() *)
  let '(startHeight, startTimestamp) := sw_getMinInitialSyncStart subWallets in
  let walletSynchronizer :=
    WalletSynchronizer_new startHeight startTimestamp (sw_getPrivateViewKey subWallets) in
  mkWalletBackend filename password (Nigel_new daemonHost daemonPort daemonSSL)
    subWallets walletSynchronizer ∅.

(** [importWalletFromSeed]. *)
Definition importWalletFromSeed (fs : FileSystem)
    (mnemonicSeed filename password : string) (scanHeight : N)
    (daemonHost : string) (daemonPort : N) (daemonSSL : bool) (salt : bytes)
    : Error * option Wallet * FileSystem :=
  (* Check the filename is valid *)
  let '(error, fs) := checkNewWalletFilename fs filename in
  if decide (error ≠ SUCCESS) then (error, None, fs)
  else
    (* Convert the mnemonic into a private spend key *)
    let '(mnemonicError, privateSpendKey) := MnemonicToPrivateKey mnemonicSeed in
    if is_error mnemonicError then (mnemonicError, None, fs)
    else
      (* Derive the private view key from the private spend key *)
      let privateViewKey := generateViewFromSpend privateSpendKey in
      let error := validatePrivateKey privateViewKey in
      if decide (error ≠ SUCCESS) then (error, None, fs)
      else
        let newWallet := false in
        let wallet : Wallet :=
          newWalletBackend filename password privateSpendKey privateViewKey
            scanHeight newWallet daemonHost daemonPort daemonSSL in
        (* Save to disk *)
        let '(error, fs) := save wallet fs salt in
        (error, Some wallet, fs).

(** [importWalletFromKeys]. *)
Definition importWalletFromKeys (fs : FileSystem)
    (privateSpendKey privateViewKey : SecretKey) (filename password : string)
    (scanHeight : N) (daemonHost : string) (daemonPort : N) (daemonSSL : bool)
    (salt : bytes)
    : Error * option Wallet * FileSystem :=
  let '(error, fs) := checkNewWalletFilename fs filename in
  if decide (error ≠ SUCCESS) then (error, None, fs)
  else
    let error := validatePrivateKey privateViewKey in
    if decide (error ≠ SUCCESS) then (error, None, fs)
    else
      let error := validatePrivateKey privateSpendKey in
      if decide (error ≠ SUCCESS) then (error, None, fs)
      else
        let newWallet := false in
        let wallet : Wallet :=
          newWalletBackend filename password privateSpendKey privateViewKey
            scanHeight newWallet daemonHost daemonPort daemonSSL in
        let '(error, fs) := save wallet fs salt in
        (error, Some wallet, fs).

(** [importViewWallet]. *)
Definition importViewWallet (fs : FileSystem)
    (privateViewKey : SecretKey) (address filename password : string)
    (scanHeight : N) (daemonHost : string) (daemonPort : N) (daemonSSL : bool)
    (salt : bytes)
    : Error * option Wallet * FileSystem :=
  let '(error, fs) := checkNewWalletFilename fs filename in
  if decide (error ≠ SUCCESS) then (error, None, fs)
  else
    let error := validatePrivateKey privateViewKey in
    if decide (error ≠ SUCCESS) then (error, None, fs)
    else
      let allowIntegratedAddresses := false in
      let error := validateAddresses [address] allowIntegratedAddresses in
      if decide (error ≠ SUCCESS) then (error, None, fs)
      else
        let wallet :=
          newViewWalletBackend filename password privateViewKey address
            scanHeight daemonHost daemonPort daemonSSL in
        let '(error, fs) := save wallet fs salt in
        (error, Some wallet, fs).

(** [getWalletLocation]. *)
Definition getWalletLocation (w : Wallet) : string := m_filename w.

(** [getPrompt] of [GetInput.cpp].  [std::equal] runs over the reversed
    extension and the reversed file name; a file name shorter than the
    extension is read past its beginning by the source and compares
    unequal here. *)
Definition getPrompt (walletBackend : Wallet) : bytes :=
  let promptLength := 20%nat in
  let walletFileName := String.list_byte_of_string (getWalletLocation walletBackend) in
  let walletName :=
    (* Filename ends in .wallet, remove extension *)
    if std_equal (rev dotWallet) (rev walletFileName)
    then
      match find_last_of x2e walletFileName with
      | Some extPos => substr 0 extPos walletFileName
      | None => walletFileName
      end
    else walletFileName in
  let shortName := substr 0 promptLength walletName in
  [x5b] ++ ticker ++ [x20] ++ shortName ++ [x5d; x3a; x20].

(** [getAddress] of [GetInput.cpp].  [stdin] holds the lines still to be
    read; [std::getline] fails when none is left.  The function returns
    the remaining lines with its result; what it prints is left out. *)
Fixpoint getAddress (integratedAddressesAllowed cancelAllowed : bool)
    (stdin : list string) : string * list string :=
  match stdin with
  | [] => ("cancel"%string, [])
  | line :: stdin =>
      let address := trim line in
      (* \n == no-op *)
      if decide (address = EmptyString)
      then getAddress integratedAddressesAllowed cancelAllowed stdin
      else if bool_decide (address = "cancel"%string) && cancelAllowed
      then (address, stdin)
      else if decide (validateAddresses [address] integratedAddressesAllowed ≠ SUCCESS)
      then getAddress integratedAddressesAllowed cancelAllowed stdin
      else (address, stdin)
  end.

(** [getPaymentID]. *)
Fixpoint getPaymentID (cancelAllowed : bool) (stdin : list string)
    : string * list string :=
  match stdin with
  | [] => ("cancel"%string, [])
  | line :: stdin =>
      let paymentID := trim line in
      if bool_decide (paymentID = "cancel"%string) && cancelAllowed
      then (paymentID, stdin)
      else if decide (paymentID = EmptyString)
      then (paymentID, stdin)
      else if decide (validatePaymentID paymentID ≠ SUCCESS)
      then getPaymentID cancelAllowed stdin
      else (paymentID, stdin)
  end.

(** [getHash]. *)
Fixpoint getHash (cancelAllowed : bool) (stdin : list string)
    : string * list string :=
  match stdin with
  | [] => ("cancel"%string, [])
  | line :: stdin =>
      let hash := trim line in
      if bool_decide (hash = "cancel"%string) && cancelAllowed
      then (hash, stdin)
      else if decide (validateHash hash ≠ SUCCESS)
      then getHash cancelAllowed stdin
      else (hash, stdin)
  end.

(** The length of the part after the last ['.'] of [amountString]. *)
Definition decimalLengthOf (amountString : string) : nat :=
  let s := String.list_byte_of_string amountString in
  match find_last_of x2e s with
  | None => 0%nat
  | Some decimalPos => length (substr (decimalPos + 1) (length s) s)
  end.

(** The string [getAmountToAtomic] hands to [std::stoull] for a line. *)
Definition atomicText (line : string) : string :=
  let amountString := removeCharFromString (trim line) ","%char in
  (removeCharFromString amountString "."%char
   +:+ String.string_of_list_byte
         (replicate (numDecimalPlaces - decimalLengthOf amountString) x30))%string.

(** [getAmountToAtomic]. *)
Fixpoint getAmountToAtomic (cancelAllowed : bool) (stdin : list string)
    : (bool * N) * list string :=
  match stdin with
  | [] => ((false, 0), [])
  | amountString :: stdin =>
      (* \n == no-op *)
      if decide (amountString = EmptyString)
      then getAmountToAtomic cancelAllowed stdin
      else
        let amountString := trim amountString in
        (* If the user entered thousand separators, remove them *)
        let amountString := removeCharFromString amountString ","%char in
        if bool_decide (amountString = "cancel"%string) && cancelAllowed
        then ((false, 0), stdin)
        else
          let decimalLength := decimalLengthOf amountString in
          (* Can't send amounts with more decimal places than supported *)
          if (numDecimalPlaces <? decimalLength)%nat
          then getAmountToAtomic cancelAllowed stdin
          else
            (* Remove the decimal place *)
            let amountString := removeCharFromString amountString "."%char in
            (* Pad the string with 0's at the end *)
            let amountString :=
              (amountString
               +:+ String.string_of_list_byte
                     (replicate (numDecimalPlaces - decimalLength) x30))%string in
            match stoull amountString with
            | Parsed amount =>
                if amount <? minimumSend
                then getAmountToAtomic cancelAllowed stdin
                else ((true, amount), stdin)
            | out_of_range => getAmountToAtomic cancelAllowed stdin
            | invalid_argument => getAmountToAtomic cancelAllowed stdin
            end
  end.

(** [getHeight(msg)]: the failure of [std::getline] is not tested, and
    at the end of the input the line is empty. *)
Fixpoint getHeight (stdin : list string) : N * list string :=
  match stdin with
  | [] => (0, [])
  | stringHeight :: stdin =>
      (* Remove commas so user can enter height as e.g. 200,000 *)
      let stringHeight := removeCharFromString stringHeight ","%char in
      if decide (stringHeight = EmptyString) then (0, stdin)
      else
        match stoull stringHeight with
        | Parsed height => (height, stdin)
        | out_of_range => getHeight stdin
        | invalid_argument => getHeight stdin
        end
  end.

End WalletImports.

(** ** The reference implementation, continued *)
Module ToyInput.

Fixpoint dropSpaces (l : list ascii) : list ascii :=
  match l with
  | a :: l' => if Ascii.eqb a " "%char then dropSpaces l' else l
  | [] => []
  end.

Definition trimSpaces (s : string) : string :=
  string_of_list_ascii
    (rev (dropSpaces (rev (dropSpaces (list_ascii_of_string s))))).

Definition removeChar (s : string) (c : ascii) : string :=
  string_of_list_ascii
    (List.filter (λ a, negb (Ascii.eqb a c)) (list_ascii_of_string s)).

Definition digit (a : ascii) : option N :=
  let n := N_of_ascii a in
  if (48 <=? n) && (n <=? 57) then Some (n - 48) else None.

Fixpoint digits (acc : N) (l : list ascii) : option N :=
  match l with
  | [] => Some acc
  | a :: l' =>
      match digit a with
      | Some d => digits (10 * acc + d) l'
      | None => None
      end
  end.

(** Decimal digits only; a value of 64 bits. *)
Definition parseDecimal (s : string) : Stoull :=
  match list_ascii_of_string s with
  | [] => invalid_argument
  | l =>
      match digits 0 l with
      | Some n => if n <? 2 ^ 64 then Parsed n else out_of_range
      | None => invalid_argument
      end
  end.

#[global] Instance toy_input : InputOps :=
  {| trim := trimSpaces;
     removeCharFromString := removeChar;
     validatePaymentID s :=
       if (String.length s =? 64)%nat then SUCCESS else OTHER_ERROR 6;
     validateHash s :=
       if (String.length s =? 64)%nat then SUCCESS else OTHER_ERROR 7;
     stoull := parseDecimal |}.

#[global] Instance toy_config : WalletConfig :=
  {| ticker := [x54; x52; x54; x4c];
     numDecimalPlaces := 2;
     minimumSend := 1 |}.

#[global] Instance toy_imports : ImportOps N Toy.SubWallets :=
  {| MnemonicToPrivateKey seed :=
       match Toy.parse_N (String.list_byte_of_string seed) with
       | Some (n, []) => (SUCCESS, n)
       | _ => (OTHER_ERROR 8, 0)
       end;
     SubWallets_newView view address scanHeight newWallet :=
       Toy.mkSubWallets view [(default 0 (Toy.keysOf address), 0)] [] (scanHeight, 0) |}.


End ToyInput.

(** * Properties *)

(** ** Errors, buffers and the magic identifiers *)

Lemma is_error_false e : is_error e = false ↔ e = SUCCESS.
Proof. destruct e; simpl; split; congruence. Qed.

Lemma is_error_true e : is_error e = true ↔ e ≠ SUCCESS.
Proof. destruct e; simpl; split; congruence. Qed.

Lemma c_str_idemp s : c_str (c_str s) = c_str s.
Proof.
  induction s as [|b s IH]; simpl; [done|].
  destruct (decide (b = x00)) as [->|Hb]; simpl; [done|].
  rewrite decide_False by done. by rewrite IH.
Qed.

Lemma c_str_no_nul s : Forall (λ b, b ≠ x00) s → c_str s = s.
Proof.
  induction 1 as [|b s Hb _ IH]; simpl; [done|].
  rewrite decide_False by done. by rewrite IH.
Qed.

Lemma std_equal_prefix identifier data :
  std_equal identifier data = true ↔ identifier `prefix_of` data.
Proof.
  revert data. induction identifier as [|i identifier IH]; intros data; simpl.
  - split; [intros _; apply prefix_nil | done].
  - destruct data as [|d data].
    + split; [done | intros Hp; by apply prefix_nil_inv in Hp].
    + rewrite andb_true_iff, bool_decide_eq_true, IH. split.
      * intros [-> Hp]. by apply prefix_cons.
      * intros Hp. split; [by apply prefix_cons_inv_1 in Hp | by apply prefix_cons_inv_2 in Hp].
Qed.

Lemma hasMagicIdentifier_present identifier rest tooSmall wrong :
  hasMagicIdentifier (identifier ++ rest) identifier tooSmall wrong = (SUCCESS, rest).
Proof.
  unfold hasMagicIdentifier.
  assert (std_equal identifier (identifier ++ rest) = true) as ->
    by (apply std_equal_prefix, prefix_app_r; done).
  rewrite length_app. simpl.
  destruct (Nat.ltb_spec (length identifier + length rest) (length identifier)); [lia|].
  by rewrite drop_app_length.
Qed.

Lemma hasMagicIdentifier_too_small data identifier tooSmall wrong :
  (length data < length identifier)%nat →
  hasMagicIdentifier data identifier tooSmall wrong = (tooSmall, data).
Proof.
  intros Hlen. unfold hasMagicIdentifier.
  destruct (Nat.ltb_spec (length data) (length identifier)); [done | lia].
Qed.

Lemma hasMagicIdentifier_wrong data identifier tooSmall wrong :
  (length identifier ≤ length data)%nat →
  ¬ identifier `prefix_of` data →
  hasMagicIdentifier data identifier tooSmall wrong = (wrong, data).
Proof.
  intros Hlen Hp. unfold hasMagicIdentifier.
  destruct (Nat.ltb_spec (length data) (length identifier)); [lia|].
  destruct (std_equal identifier data) eqn:Heq; [|done].
  by apply std_equal_prefix in Heq.
Qed.

(** Without the identifier in front, the check fails with one of its two
    errors and leaves the buffer alone. *)
Lemma hasMagicIdentifier_absent data identifier tooSmall wrong :
  ¬ identifier `prefix_of` data →
  hasMagicIdentifier data identifier tooSmall wrong
  = (if (length data <? length identifier)%nat then tooSmall else wrong, data).
Proof.
  intros Hp. destruct (Nat.ltb_spec (length data) (length identifier)) as [Hlt|Hge].
  - by apply hasMagicIdentifier_too_small.
  - by apply hasMagicIdentifier_wrong.
Qed.

(** ** The file system *)

Lemma ofstream_open_writable fs filename :
  fs_writable fs filename = true →
  ofstream_open fs filename
  = Some (mkFileSystem (<[filename := []]> (fs_files fs)) (fs_writable fs)).
Proof. intros Hw. unfold ofstream_open. by rewrite Hw. Qed.

Lemma ofstream_open_unwritable fs filename :
  fs_writable fs filename = false → ofstream_open fs filename = None.
Proof. intros Hw. unfold ofstream_open. by rewrite Hw. Qed.

Lemma ofstream_write_lookup fs filename data :
  fs_files (ofstream_write fs filename data) !! filename
  = Some (default [] (fs_files fs !! filename) ++ data).
Proof. unfold ofstream_write. simpl. apply lookup_insert_eq. Qed.

Lemma ofstream_write_other fs filename data other :
  filename ≠ other →
  fs_files (ofstream_write fs filename data) !! other = fs_files fs !! other.
Proof. intros Hne. unfold ofstream_write. simpl. by apply lookup_insert_ne. Qed.



(** A name that is free and writable passes the check, and the file the
    check created is removed again: the files are as before. *)
Lemma checkNewWalletFilename_free fs filename :
  fs_files fs !! filename = None →
  fs_writable fs filename = true →
  checkNewWalletFilename fs filename = (SUCCESS, fs).
Proof.
  intros Hno Hw. unfold checkNewWalletFilename, ifstream_good.
  rewrite bool_decide_eq_false_2 by (rewrite Hno; by intros [? ?]).
  rewrite ofstream_open_writable by done.
  unfold fs_remove. simpl. rewrite delete_insert_eq, delete_id by done.
  by destruct fs.
Qed.

Section Properties.

Context {SecretKey PublicKey Hash Transaction PreparedTransactionInfo
         FeeType Nigel SubWallets WalletSynchronizer : Type}.
Context `{Countable Hash} `{EqDecision SecretKey}.
Context `{Constants} `{CryptoPP} `{RapidJson}.
Context `{!Crypto SecretKey PublicKey}.
Context `{!SubWalletsOps SecretKey PublicKey Transaction SubWallets}.
Context `{!WalletSynchronizerOps SecretKey WalletSynchronizer}.
Context `{!SendTransactionOps Hash PreparedTransactionInfo FeeType Nigel SubWallets}.

Variable blockHeight : Transaction → N.

Abbreviation Wallet :=
  (@WalletBackend Hash PreparedTransactionInfo Nigel SubWallets WalletSynchronizer _ _).

Implicit Types (w : Wallet) (fs : FileSystem) (sw : SubWallets)
  (ws : WalletSynchronizer) (buffer salt : bytes) (password filename : string).

(** ** The encrypted container *)

(** A successful save leaves the encoded wallet in the file and touches
    no other file. *)
Lemma saveWalletJSONToDisk_writable fs walletJSON filename password salt :
  fs_writable fs filename = true →
  ∃ fs', saveWalletJSONToDisk fs walletJSON filename password salt = (SUCCESS, fs')
         ∧ fs_files fs' !! filename = Some (encodeWallet walletJSON password salt)
         ∧ (∀ other, filename ≠ other → fs_files fs' !! other = fs_files fs !! other)
         ∧ fs_writable fs' = fs_writable fs.
Proof.
  intros Hw. unfold saveWalletJSONToDisk.
  rewrite ofstream_open_writable by done.
  eexists. split; [reflexivity|]. split; [|split].
  - rewrite !ofstream_write_lookup. simpl. rewrite lookup_insert_eq. simpl.
    unfold encodeWallet. by rewrite <- !app_assoc.
  - intros other Hne. rewrite !ofstream_write_other by done. simpl.
    by rewrite lookup_insert_ne.
  - done.
Qed.

Lemma saveWalletJSONToDisk_unwritable fs walletJSON filename password salt :
  fs_writable fs filename = false →
  saveWalletJSONToDisk fs walletJSON filename password salt
  = (INVALID_WALLET_FILENAME, fs).
Proof.
  intros Hw. unfold saveWalletJSONToDisk. by rewrite ofstream_open_unwritable.
Qed.

(** Reading the document [unsafeToJSON] writes. *)
Lemma fromJSON_walletDocument sw ws :
  subWallets_roundtrips sw →
  walletSynchronizer_roundtrips ws →
  fromJSON (walletDocument sw ws) = Some (inr (sw, ws)).
Proof.
  intros (msw & Hsw & Hrsw) (mws & Hws & Hrws).
  unfold fromJSON, walletDocument, getUint64FromJSON, getObjectFromJSON, getJsonValue.
  rewrite Hsw, Hws. simpl.
  rewrite N.eqb_refl. simpl.
  repeat (case_decide; try done). simpl in *.
  by rewrite Hrsw, Hrws.
Qed.

(** Past the wallet identifier and the salt, the decoder continues with
    the decryption of what follows. *)
Lemma decodeWallet_envelope salt encryptedData password :
  length salt = 16%nat →
  decodeWallet (IS_A_WALLET_IDENTIFIER ++ salt ++ encryptedData) password
  = match CBC_AES_Decryption (PBKDF2_DeriveKey 16 password salt PBKDF2_ITERATIONS)
            salt encryptedData with
    | None => inl WRONG_PASSWORD
    | Some decryptedData =>
        let '(error, decryptedData) :=
          hasMagicIdentifier decryptedData IS_CORRECT_PASSWORD_IDENTIFIER
            WALLET_FILE_CORRUPTED WRONG_PASSWORD in
        if is_error error then inl error
        else
          match Document_Parse (c_str decryptedData) with
          | None => inl WALLET_FILE_CORRUPTED
          | Some walletJson =>
              match fromJSON walletJson with
              | None => inl WALLET_FILE_CORRUPTED
              | Some r => r
              end
          end
    end.
Proof.
  intros Hsalt. unfold decodeWallet.
  rewrite hasMagicIdentifier_present. simpl.
  rewrite length_app, Hsalt.
  destruct (Nat.ltb_spec (16 + length encryptedData) 16); [lia|].
  assert (take 16 (salt ++ encryptedData) = salt) as ->
    by (rewrite <- Hsalt; apply take_app_length).
  assert (drop 16 (salt ++ encryptedData) = encryptedData) as ->
    by (rewrite <- Hsalt; apply drop_app_length).
  done.
Qed.

(** The envelope around a JSON text: with the right password the
    decoder gets through both identifiers, the salt and the cipher, and
    arrives at the text. *)
Lemma decodeWallet_encodeWallet walletJSON password salt :
  length salt = 16%nat →
  cipher_inverts (PBKDF2_DeriveKey 16 password salt PBKDF2_ITERATIONS) salt
    (IS_CORRECT_PASSWORD_IDENTIFIER ++ walletJSON) →
  decodeWallet (encodeWallet walletJSON password salt) password
  = match Document_Parse (c_str walletJSON) with
    | None => inl WALLET_FILE_CORRUPTED
    | Some walletJson =>
        match fromJSON walletJson with
        | None => inl WALLET_FILE_CORRUPTED
        | Some r => r
        end
    end.
Proof.
  intros Hsalt Hcipher. unfold encodeWallet.
  rewrite decodeWallet_envelope by done.
  unfold encryptWalletJSON. red in Hcipher. rewrite Hcipher.
  by rewrite hasMagicIdentifier_present.
Qed.


(** Opening the file a successful save wrote: the decoder runs on the
    encoded wallet. *)
Lemma openWallet_after_save w fs salt daemonHost daemonPort daemonSSL :
  fs_writable fs (m_filename w) = true →
  ∃ fs', save w fs salt = (SUCCESS, fs')
         ∧ openWallet fs' (m_filename w) (m_password w) daemonHost daemonPort daemonSSL
           = match decodeWallet (encodeWallet (unsafeToJSON w) (m_password w) salt)
                     (m_password w) with
             | inl error => (error, None)
             | inr (sw, ws) =>
                 (SUCCESS,
                  Some (mkWalletBackend (m_filename w) (m_password w)
                          (Nigel_new daemonHost daemonPort daemonSSL) sw ws ∅))
             end.
Proof.
  intros Hw. unfold save, unsafeSave.
  destruct (saveWalletJSONToDisk_writable fs (unsafeToJSON w) (m_filename w)
              (m_password w) salt Hw) as (fs' & -> & Hfile & _).
  exists fs'. split; [done|].
  unfold openWallet, ifstream_read. by rewrite Hfile.
Qed.

(** C1. Round trip of the container: for every wallet (registry and
    synchronizer checkpoint, written with the supported file-format
    version), every password and every salt of 16 bytes, decoding the
    bytes encoded under the password with the same password succeeds
    and yields the same registry and the same checkpoint, read from a
    document whose version is the supported one.  The cipher, the JSON
    text and the collaborators' own JSON are assumed to round-trip on
    the values at hand. *)
Theorem decode_encode_roundtrip w password salt :
  length salt = 16%nat →
  cipher_inverts (PBKDF2_DeriveKey 16 password salt PBKDF2_ITERATIONS) salt
    (IS_CORRECT_PASSWORD_IDENTIFIER ++ unsafeToJSON w) →
  json_text_roundtrips (walletDocument (m_subWallets w) (m_walletSynchronizer w)) →
  subWallets_roundtrips (m_subWallets w) →
  walletSynchronizer_roundtrips (m_walletSynchronizer w) →
  decodeWallet (encodeWallet (unsafeToJSON w) password salt) password
  = inr (m_subWallets w, m_walletSynchronizer w)
  ∧ getUint64FromJSON (walletDocument (m_subWallets w) (m_walletSynchronizer w))
      "walletFileFormatVersion" = Some WALLET_FILE_FORMAT_VERSION.
Proof.
  intros Hsalt Hcipher Hjson Hsw Hws. split; [|done].
  rewrite decodeWallet_encodeWallet by done.
  unfold unsafeToJSON. rewrite c_str_idemp.
  red in Hjson. rewrite Hjson.
  by rewrite fromJSON_walletDocument.
Qed.

(** C2. The error of the first failing step of the decoder, for every
    buffer and password: [NOT_A_WALLET_FILE] when the wallet identifier
    is not in front (the buffer too short for it, or other bytes);
    [WALLET_FILE_CORRUPTED] when fewer than 16 bytes follow it;
    [WRONG_PASSWORD] when decryption fails; then
    [WALLET_FILE_CORRUPTED] when the plaintext is shorter than the
    password identifier and [WRONG_PASSWORD] when it is long enough and
    starts otherwise; [WALLET_FILE_CORRUPTED] when the rest does not
    parse; [UNSUPPORTED_WALLET_FILE_FORMAT_VERSION] when the version read
    from the document is not the supported one. *)
Theorem decode_error_kinds buffer password :
  (¬ IS_A_WALLET_IDENTIFIER `prefix_of` buffer →
     decodeWallet buffer password = inl NOT_A_WALLET_FILE)
  ∧ (∀ rest, buffer = IS_A_WALLET_IDENTIFIER ++ rest →
       (length rest < 16)%nat →
       decodeWallet buffer password = inl WALLET_FILE_CORRUPTED)
  ∧ (∀ salt encryptedData,
       buffer = IS_A_WALLET_IDENTIFIER ++ salt ++ encryptedData →
       length salt = 16%nat →
       let key := PBKDF2_DeriveKey 16 password salt PBKDF2_ITERATIONS in
       (CBC_AES_Decryption key salt encryptedData = None →
          decodeWallet buffer password = inl WRONG_PASSWORD)
       ∧ (∀ decryptedData,
            CBC_AES_Decryption key salt encryptedData = Some decryptedData →
            ((length decryptedData < length IS_CORRECT_PASSWORD_IDENTIFIER)%nat →
               decodeWallet buffer password = inl WALLET_FILE_CORRUPTED)
            ∧ ((length IS_CORRECT_PASSWORD_IDENTIFIER ≤ length decryptedData)%nat →
               ¬ IS_CORRECT_PASSWORD_IDENTIFIER `prefix_of` decryptedData →
               decodeWallet buffer password = inl WRONG_PASSWORD)
            ∧ (∀ walletJSON,
                 decryptedData = IS_CORRECT_PASSWORD_IDENTIFIER ++ walletJSON →
                 (Document_Parse (c_str walletJSON) = None →
                    decodeWallet buffer password = inl WALLET_FILE_CORRUPTED)
                 ∧ (∀ walletJson version,
                      Document_Parse (c_str walletJSON) = Some walletJson →
                      getUint64FromJSON walletJson "walletFileFormatVersion"
                      = Some version →
                      version ≠ WALLET_FILE_FORMAT_VERSION →
                      decodeWallet buffer password
                      = inl UNSUPPORTED_WALLET_FILE_FORMAT_VERSION)))).
Proof.
  split; [|split].
  - intros Hp. unfold decodeWallet.
    rewrite hasMagicIdentifier_absent by done.
    by destruct (length buffer <? length IS_A_WALLET_IDENTIFIER)%nat.
  - intros rest -> Hlen. unfold decodeWallet.
    rewrite hasMagicIdentifier_present. simpl.
    by destruct (Nat.ltb_spec (length rest) 16); [|lia].
  - intros salt encryptedData -> Hsalt key. subst key.
    rewrite decodeWallet_envelope by done. split.
    + by intros ->.
    + intros decryptedData ->. split; [|split].
      * intros Hlen. by rewrite hasMagicIdentifier_too_small.
      * intros Hlen Hp. by rewrite hasMagicIdentifier_wrong.
      * intros walletJSON ->. rewrite hasMagicIdentifier_present. simpl. split.
        -- by intros ->.
        -- intros walletJson version -> Hversion Hne.
           unfold fromJSON. rewrite Hversion.
           destruct (N.eqb_spec version WALLET_FILE_FORMAT_VERSION); done.
Qed.

(** ** Prepared transactions *)

Lemma removePreparedTransaction_lookup w hash :
  m_preparedTransactions (removePreparedTransaction w hash).2 !! hash = None.
Proof. unfold removePreparedTransaction. simpl. apply lookup_delete_eq. Qed.

(** Removal is idempotent and reports whether an entry was there. *)
Lemma removePreparedTransaction_twice w hash :
  let w' := (removePreparedTransaction w hash).2 in
  removePreparedTransaction w' hash = (false, w').
Proof.
  unfold removePreparedTransaction. simpl.
  rewrite bool_decide_eq_false_2 by (rewrite lookup_delete_eq; by intros [? ?]).
  unfold set_preparedTransactions. simpl. f_equal. f_equal.
  apply delete_id, lookup_delete_eq.
Qed.

Lemma keyed_by_hash_empty :
  keyed_by_hash (∅ : gmap Hash PreparedTransactionInfo).
Proof. apply map_Forall_empty. Qed.

Lemma keyed_by_hash_insert (cache : gmap Hash PreparedTransactionInfo) prepared :
  keyed_by_hash cache →
  keyed_by_hash (<[transactionHash prepared := prepared]> cache).
Proof. intros Hk. by apply map_Forall_insert_2. Qed.

Lemma keyed_by_hash_delete (cache : gmap Hash PreparedTransactionInfo) hash :
  keyed_by_hash cache → keyed_by_hash (delete hash cache).
Proof. intros Hk. by apply map_Forall_delete. Qed.

(** What a call of [sendPreparedTransaction] on a cached hash does to
    the cache. *)
Lemma sendPreparedTransaction_cache w hash prepared :
  m_preparedTransactions w !! hash = Some prepared →
  let error :=
    (SendTransaction_sendPreparedTransaction prepared (m_daemon w) (m_subWallets w)).1.1.1 in
  (sendPreparedTransaction w hash).1.1 = error
  ∧ m_preparedTransactions (sendPreparedTransaction w hash).2
    = if bool_decide (error = PREPARED_TRANSACTION_EXPIRED) || negb (is_error error)
      then delete (transactionHash prepared) (m_preparedTransactions w)
      else m_preparedTransactions w.
Proof.
  intros Hin. unfold sendPreparedTransaction. rewrite Hin.
  destruct (SendTransaction_sendPreparedTransaction _ _ _) as [[[error sent] daemon] sw].
  simpl. split; [done|].
  by destruct (bool_decide (error = PREPARED_TRANSACTION_EXPIRED) || negb (is_error error)).
Qed.

(** The cache stays keyed by hash under [sendPreparedTransaction]. *)
Lemma sendPreparedTransaction_keyed w hash :
  keyed_by_hash (m_preparedTransactions w) →
  keyed_by_hash (m_preparedTransactions (sendPreparedTransaction w hash).2).
Proof.
  intros Hk. destruct (m_preparedTransactions w !! hash) as [prepared|] eqn:Hin.
  - destruct (sendPreparedTransaction_cache w hash prepared Hin) as [_ ->].
    case_match; [by apply keyed_by_hash_delete | done].
  - unfold sendPreparedTransaction. by rewrite Hin.
Qed.

(** C3. [sendPreparedTransaction] on a hash that is not in the cache
    fails with [PREPARED_TRANSACTION_NOT_FOUND] and changes nothing; and,
    in a cache keyed by transaction hash, after a call that succeeds or
    that finds the transaction expired the entry is gone, so that a
    second call with the same hash fails with
    [PREPARED_TRANSACTION_NOT_FOUND]. *)
Theorem sendPreparedTransaction_at_most_once w hash :
  (m_preparedTransactions w !! hash = None →
     sendPreparedTransaction w hash
     = ((PREPARED_TRANSACTION_NOT_FOUND, Hash_default), w))
  ∧ (keyed_by_hash (m_preparedTransactions w) →
     ∀ error sent w',
       sendPreparedTransaction w hash = ((error, sent), w') →
       error = SUCCESS ∨ error = PREPARED_TRANSACTION_EXPIRED →
       m_preparedTransactions w' !! hash = None
       ∧ sendPreparedTransaction w' hash
         = ((PREPARED_TRANSACTION_NOT_FOUND, Hash_default), w')).
Proof.
  assert (∀ w0, m_preparedTransactions w0 !! hash = None →
            sendPreparedTransaction w0 hash
            = ((PREPARED_TRANSACTION_NOT_FOUND, Hash_default), w0)) as Habsent.
  { intros w0 Hno. unfold sendPreparedTransaction. by rewrite Hno. }
  split; [apply Habsent|].
  intros Hk error sent w' Hsend Herr.
  assert (m_preparedTransactions w' !! hash = None) as Hgone.
  { destruct (m_preparedTransactions w !! hash) as [prepared|] eqn:Hin.
    - destruct (sendPreparedTransaction_cache w hash prepared Hin) as [He Hc].
      rewrite Hsend in He, Hc. simpl in He, Hc. rewrite <- He in Hc.
      rewrite (Hk hash prepared Hin) in Hc.
      rewrite Hc. destruct Herr as [-> | ->]; simpl; apply lookup_delete_eq.
    - rewrite Habsent in Hsend by done. by simplify_eq. }
  split; [done | by apply Habsent].
Qed.

(** The error, the hash and the prepared transaction of the builder come
    back unchanged, and the cache gains the entry exactly on a deferred
    build without error. *)
Lemma sendTransactionBasic_cache w destination amount paymentID
    sendAll sendTransaction deadline :
  let built :=
    (SendTransaction_sendTransactionBasic destination amount paymentID
       (m_daemon w) (m_subWallets w) sendAll sendTransaction deadline).1.1 in
  let result :=
    sendTransactionBasic w destination amount paymentID sendAll sendTransaction deadline in
  result.1 = built
  ∧ m_preparedTransactions result.2
    = if negb sendTransaction && negb (is_error built.1.1)
      then <[built.1.2 := built.2]> (m_preparedTransactions w)
      else m_preparedTransactions w.
Proof.
  unfold sendTransactionBasic.
  destruct (SendTransaction_sendTransactionBasic _ _ _ _ _ _ _ _)
    as [[[[error hash] prepared] daemon] sw].
  simpl. split; [done|].
  by destruct (negb sendTransaction && negb (is_error error)).
Qed.



(** The cache stays keyed by hash under a prepare operation whose
    builder returns the hash of the transaction it prepared. *)
Lemma sendTransactionBasic_keyed w destination amount paymentID
    sendAll sendTransaction deadline error hash prepared w' :
  sendTransactionBasic w destination amount paymentID sendAll sendTransaction deadline
  = ((error, hash, prepared), w') →
  transactionHash prepared = hash →
  keyed_by_hash (m_preparedTransactions w) →
  keyed_by_hash (m_preparedTransactions w').
Proof.
  intros Hcall Hhash Hk.
  destruct (sendTransactionBasic_cache w destination amount paymentID
              sendAll sendTransaction deadline) as [Hres Hcache].
  rewrite Hcall in Hres, Hcache. simpl in Hres, Hcache.
  rewrite <- Hres in Hcache. simpl in Hcache. rewrite Hcache.
  case_match; [|done]. subst hash. by apply keyed_by_hash_insert.
Qed.

(** ** Importing, resetting and rewinding *)

Lemma importSubWallet_unfold w privateSpendKey scanHeight :
  validatePrivateKey privateSpendKey = SUCCESS →
  let imported := sw_importSubWallet (m_subWallets w) privateSpendKey scanHeight in
  let result := importSubWallet w privateSpendKey scanHeight in
  result.1 = imported.1
  ∧ m_walletSynchronizer result.2
    = synchronizerAfterImport (m_walletSynchronizer w) imported.1.1 scanHeight
  ∧ m_subWallets result.2
    = (if negb (is_error imported.1.1)
          && (scanHeight <=? ws_getCurrentScanHeight (m_walletSynchronizer w))
       then sw_rewind imported.2 scanHeight else imported.2).
Proof.
  intros Hvalid. unfold importSubWallet, synchronizerAfterImport. rewrite Hvalid.
  rewrite decide_False by (by intros ?).
  destruct (sw_importSubWallet _ _ _) as [[error address] sw']. simpl.
  destruct (is_error error); simpl; [done|].
  by destruct (scanHeight <=? ws_getCurrentScanHeight (m_walletSynchronizer w)).
Qed.

Lemma importSubWalletIndex_unfold w walletIndex scanHeight :
  let imported := sw_importSubWalletIndex (m_subWallets w) walletIndex scanHeight in
  let result := importSubWalletIndex w walletIndex scanHeight in
  result.1 = imported.1
  ∧ m_walletSynchronizer result.2
    = synchronizerAfterImport (m_walletSynchronizer w) imported.1.1 scanHeight
  ∧ m_subWallets result.2
    = (if negb (is_error imported.1.1)
          && (scanHeight <=? ws_getCurrentScanHeight (m_walletSynchronizer w))
       then sw_reset imported.2 scanHeight else imported.2).
Proof.
  unfold importSubWalletIndex, synchronizerAfterImport.
  destruct (sw_importSubWalletIndex _ _ _) as [[error address] sw']. simpl.
  destruct (is_error error); simpl; [done|].
  by destruct (scanHeight <=? ws_getCurrentScanHeight (m_walletSynchronizer w)).
Qed.

Lemma importViewSubWallet_unfold w publicSpendKey scanHeight :
  validatePublicKey publicSpendKey = SUCCESS →
  let imported := sw_importViewSubWallet (m_subWallets w) publicSpendKey scanHeight in
  let result := importViewSubWallet w publicSpendKey scanHeight in
  result.1 = imported.1
  ∧ m_walletSynchronizer result.2
    = synchronizerAfterImport (m_walletSynchronizer w) imported.1.1 scanHeight
  ∧ m_subWallets result.2
    = (if negb (is_error imported.1.1)
          && (scanHeight <=? ws_getCurrentScanHeight (m_walletSynchronizer w))
       then sw_reset imported.2 scanHeight else imported.2).
Proof.
  intros Hvalid. unfold importViewSubWallet, synchronizerAfterImport. rewrite Hvalid.
  rewrite decide_False by (by intros ?).
  destruct (sw_importViewSubWallet _ _ _) as [[error address] sw']. simpl.
  destruct (is_error error); simpl; [done|].
  by destruct (scanHeight <=? ws_getCurrentScanHeight (m_walletSynchronizer w)).
Qed.

(** A failed validation returns before the wallet is touched. *)
Lemma importSubWallet_invalid w privateSpendKey scanHeight :
  validatePrivateKey privateSpendKey ≠ SUCCESS →
  importSubWallet w privateSpendKey scanHeight
  = ((validatePrivateKey privateSpendKey, EmptyString), w).
Proof. intros Hinv. unfold importSubWallet. by rewrite decide_True. Qed.

Lemma importViewSubWallet_invalid w publicSpendKey scanHeight :
  validatePublicKey publicSpendKey ≠ SUCCESS →
  importViewSubWallet w publicSpendKey scanHeight
  = ((validatePublicKey publicSpendKey, EmptyString), w).
Proof. intros Hinv. unfold importViewSubWallet. by rewrite decide_True. Qed.

(** From the unfolded import [Hstep] and the successful call [Hcall]:
    the two cases of the comparison with the height reached. *)
Ltac rescan_cases Hstep Hcall current :=
  let Hres := fresh "Hres" in
  let Hws := fresh "Hws" in
  let Hsw := fresh "Hsw" in
  let Hcmp := fresh "Hcmp" in
  destruct Hstep as (Hres & Hws & Hsw);
  rewrite Hcall in Hres, Hws, Hsw; simpl in Hres, Hws, Hsw;
  unfold synchronizerAfterImport in Hws;
  rewrite <- Hres in Hws, Hsw; simpl in Hws, Hsw; fold current in Hws, Hsw;
  split;
  [ intros Hcmp; apply N.leb_le in Hcmp; by rewrite Hcmp in Hws, Hsw
  | intros Hcmp; apply N.leb_gt in Hcmp; by rewrite Hcmp in Hws ].

(** C5. Every import of a sub-wallet (by private spend key, by wallet
    index, view only) that succeeds with requested scan height [H]: when
    the synchronizer has reached [H] or more, the synchronizer is reset
    to [H] and the registry, with the new sub-wallet in it, is rolled
    back to [H] ([rewind] for the import by key, [reset] for the other
    two); when the synchronizer is below [H] it is left as it was. *)
Theorem import_rescans_from_requested_height w scanHeight :
  let current := ws_getCurrentScanHeight (m_walletSynchronizer w) in
  (∀ privateSpendKey address w',
     importSubWallet w privateSpendKey scanHeight = ((SUCCESS, address), w') →
     (scanHeight ≤ current →
        m_walletSynchronizer w' = ws_reset (m_walletSynchronizer w) scanHeight
        ∧ m_subWallets w'
          = sw_rewind (sw_importSubWallet (m_subWallets w) privateSpendKey scanHeight).2
              scanHeight)
     ∧ (current < scanHeight → m_walletSynchronizer w' = m_walletSynchronizer w))
  ∧ (∀ walletIndex address w',
       importSubWalletIndex w walletIndex scanHeight = ((SUCCESS, address), w') →
       (scanHeight ≤ current →
          m_walletSynchronizer w' = ws_reset (m_walletSynchronizer w) scanHeight
          ∧ m_subWallets w'
            = sw_reset (sw_importSubWalletIndex (m_subWallets w) walletIndex scanHeight).2
                scanHeight)
       ∧ (current < scanHeight → m_walletSynchronizer w' = m_walletSynchronizer w))
  ∧ (∀ publicSpendKey address w',
       importViewSubWallet w publicSpendKey scanHeight = ((SUCCESS, address), w') →
       (scanHeight ≤ current →
          m_walletSynchronizer w' = ws_reset (m_walletSynchronizer w) scanHeight
          ∧ m_subWallets w'
            = sw_reset (sw_importViewSubWallet (m_subWallets w) publicSpendKey scanHeight).2
                scanHeight)
       ∧ (current < scanHeight → m_walletSynchronizer w' = m_walletSynchronizer w)).
Proof.
  intros current. split; [|split].
  - intros privateSpendKey address w' Hcall.
    destruct (decide (validatePrivateKey privateSpendKey = SUCCESS)) as [Hvalid|Hinv].
    + pose proof (importSubWallet_unfold w privateSpendKey scanHeight Hvalid) as Hstep.
      rescan_cases Hstep Hcall current.
    + rewrite importSubWallet_invalid in Hcall by done. by simplify_eq.
  - intros walletIndex address w' Hcall.
    pose proof (importSubWalletIndex_unfold w walletIndex scanHeight) as Hstep.
    rescan_cases Hstep Hcall current.
  - intros publicSpendKey address w' Hcall.
    destruct (decide (validatePublicKey publicSpendKey = SUCCESS)) as [Hvalid|Hinv].
    + pose proof (importViewSubWallet_unfold w publicSpendKey scanHeight Hvalid) as Hstep.
      rescan_cases Hstep Hcall current.
    + rewrite importViewSubWallet_invalid in Hcall by done. by simplify_eq.
Qed.

(** The scan height [reset] and [rewind] cut at. *)
Lemma reset_unfold w scanHeight timestamp fs salt :
  let cut := if negb (timestamp =? 0) then timestampToScanHeight timestamp
             else scanHeight in
  m_walletSynchronizer (reset w scanHeight timestamp fs salt).1
  = ws_reset (m_walletSynchronizer w) cut
  ∧ m_subWallets (reset w scanHeight timestamp fs salt).1
    = sw_reset (m_subWallets w) cut.
Proof. unfold reset. by destruct (negb (timestamp =? 0)). Qed.

Lemma rewind_unfold w scanHeight timestamp fs salt :
  let cut := if negb (timestamp =? 0) then timestampToScanHeight timestamp
             else scanHeight in
  m_walletSynchronizer (rewind w scanHeight timestamp fs salt).1
  = ws_rewind (m_walletSynchronizer w) cut
  ∧ m_subWallets (rewind w scanHeight timestamp fs salt).1
    = sw_rewind (m_subWallets w) cut.
Proof. unfold rewind. by destruct (negb (timestamp =? 0)). Qed.

(** C8. When a timestamp is supplied to [reset] or [rewind] (it is not
    zero), the synchronizer and the registry of the wallet before the
    call are both cut at [timestampToScanHeight timestamp], a function of
    the timestamp alone; the scan height supplied next to the timestamp
    plays no part. *)
Theorem timestamp_converted_to_scan_height w scanHeight timestamp fs salt :
  timestamp ≠ 0 →
  let cut := timestampToScanHeight timestamp in
  (m_walletSynchronizer (reset w scanHeight timestamp fs salt).1
   = ws_reset (m_walletSynchronizer w) cut
   ∧ m_subWallets (reset w scanHeight timestamp fs salt).1
     = sw_reset (m_subWallets w) cut
   ∧ ∀ otherHeight,
       reset w otherHeight timestamp fs salt = reset w scanHeight timestamp fs salt)
  ∧ (m_walletSynchronizer (rewind w scanHeight timestamp fs salt).1
     = ws_rewind (m_walletSynchronizer w) cut
     ∧ m_subWallets (rewind w scanHeight timestamp fs salt).1
       = sw_rewind (m_subWallets w) cut
     ∧ ∀ otherHeight,
         rewind w otherHeight timestamp fs salt = rewind w scanHeight timestamp fs salt).
Proof.
  intros Hts cut. apply N.eqb_neq in Hts.
  pose proof (reset_unfold w scanHeight timestamp fs salt) as [Hrs1 Hrs2].
  pose proof (rewind_unfold w scanHeight timestamp fs salt) as [Hrw1 Hrw2].
  rewrite Hts in Hrs1, Hrs2, Hrw1, Hrw2. simpl in *.
  repeat split; try done.
  - intros otherHeight. unfold reset. by rewrite Hts.
  - intros otherHeight. unfold rewind. by rewrite Hts.
Qed.

(** Without a timestamp the supplied scan height is the cut. *)
Lemma reset_without_timestamp w scanHeight fs salt :
  m_walletSynchronizer (reset w scanHeight 0 fs salt).1
  = ws_reset (m_walletSynchronizer w) scanHeight
  ∧ m_subWallets (reset w scanHeight 0 fs salt).1
    = sw_reset (m_subWallets w) scanHeight.
Proof. apply (reset_unfold w scanHeight 0 fs salt). Qed.

(** ** History and keys *)

Lemma filter_map_heights {A} (f : A → N) (p : N → bool) (l : list A) :
  f <$> List.filter (λ x, p (f x)) l = List.filter p (f <$> l).
Proof.
  induction l as [|x l IH]; [done|].
  rewrite fmap_cons. simpl.
  destruct (p (f x)); [rewrite fmap_cons|]; by rewrite IH.
Qed.

(** C6. [getTransactionsRange a b] is the history restricted to the
    heights [a ≤ blockHeight < b]: a transaction is returned exactly when
    it is in the history and in the interval, the result is a sublist of
    the history (order and repetitions kept), and on a history at
    heights 5, 10, 10, 15 the range from 10 to 15 returns the two
    transactions at height 10 and not the one at 15. *)
Theorem getTransactionsRange_half_open w startHeight endHeight :
  (∀ tx, tx ∈ getTransactionsRange blockHeight w startHeight endHeight
         ↔ tx ∈ getTransactions w
           ∧ startHeight ≤ blockHeight tx ∧ blockHeight tx < endHeight)
  ∧ getTransactionsRange blockHeight w startHeight endHeight `sublist_of` getTransactions w
  ∧ (blockHeight <$> getTransactions w = [5; 10; 10; 15] →
     blockHeight <$> getTransactionsRange blockHeight w 10 15 = [10; 10]).
Proof.
  unfold getTransactionsRange. split; [|split].
  - intros tx. rewrite !list_elem_of_In, filter_In, andb_true_iff.
    rewrite N.leb_le, N.ltb_lt. tauto.
  - induction (getTransactions w) as [|tx l IH]; simpl; [done|].
    case_match; [by apply sublist_skip | by apply sublist_cons].
  - intros Hheights.
    rewrite (filter_map_heights blockHeight (λ h, (10 <=? h) && (h <? 15))).
    by rewrite Hheights.
Qed.

(** C7. For an address that validates and whose spend key the registry
    holds, [getMnemonicSeedForAddress] derives a view key from that
    private spend key; it returns [KEYS_NOT_DETERMINISTIC] with an empty
    seed when the derived key differs from the stored private view key,
    and the mnemonic of the spend key when the two are equal.  For any
    address, a seed is returned only with the two view keys equal. *)
Theorem mnemonic_seed_requires_derived_view_key w address :
  (validateAddresses [address] false = SUCCESS →
   ∀ privateSpendKey walletIndex,
     sw_getPrivateSpendKey (m_subWallets w) (addressToKeys address).1
     = (SUCCESS, privateSpendKey, walletIndex) →
     (generateViewFromSpend privateSpendKey ≠ getPrivateViewKey w →
        getMnemonicSeedForAddress w address = (KEYS_NOT_DETERMINISTIC, EmptyString))
     ∧ (generateViewFromSpend privateSpendKey = getPrivateViewKey w →
        getMnemonicSeedForAddress w address
        = (SUCCESS, PrivateKeyToMnemonic privateSpendKey)))
  ∧ (∀ seed,
       getMnemonicSeedForAddress w address = (SUCCESS, seed) →
       generateViewFromSpend (getSpendKeys w address).1.2 = getPrivateViewKey w
       ∧ seed = PrivateKeyToMnemonic (getSpendKeys w address).1.2).
Proof.
  split.
  - intros Hvalid privateSpendKey walletIndex Hkey.
    unfold getMnemonicSeedForAddress, getSpendKeys. rewrite Hvalid.
    rewrite !decide_False by (by intros ?).
    destruct (addressToKeys address) as [publicSpendKey publicViewKey].
    simpl in Hkey. rewrite Hkey. simpl. split.
    + intros Hne. by rewrite decide_True.
    + intros Heq. by rewrite decide_False by (by intros ?).
  - intros seed. unfold getMnemonicSeedForAddress.
    destruct (decide (validateAddresses [address] false ≠ SUCCESS));
      [intros [= ? ?]; congruence|].
    destruct (getSpendKeys w address) as [[[error publicSpendKey] privateSpendKey] walletIndex].
    simpl. destruct (is_error error) eqn:Herror; [intros [= -> _]; done|].
    destruct (decide (generateViewFromSpend privateSpendKey ≠ getPrivateViewKey w))
      as [Hne|Heq]; [done|].
    intros [= <-]. split; [|done].
    by destruct (decide (generateViewFromSpend privateSpendKey = getPrivateViewKey w)).
Qed.

(** ** Creating a wallet and changing its password *)

(** The password is not part of the JSON text. *)
Lemma unsafeToJSON_set_password w password :
  unsafeToJSON (set_password w password) = unsafeToJSON w.
Proof. done. Qed.


(** C10. [changePassword] with the current password returns [SUCCESS]
    and leaves the wallet and the disk as they are.  With another
    password the wallet holds the new password, nothing else of it
    changes, and the outcome is that of [save] on it: when the wallet
    file can be opened, [SUCCESS] and the file holds the wallet encoded
    under the new password. *)
Theorem changePassword_saves_unless_same w newPassword fs salt :
  (m_password w = newPassword →
     changePassword w newPassword fs salt = (SUCCESS, w, fs))
  ∧ (m_password w ≠ newPassword →
     let w' := set_password w newPassword in
     m_password w' = newPassword
     ∧ changePassword w newPassword fs salt
       = ((save w' fs salt).1, w', (save w' fs salt).2)
     ∧ (fs_writable fs (m_filename w) = true →
        ∃ fs',
          changePassword w newPassword fs salt = (SUCCESS, w', fs')
          ∧ fs_files fs' !! m_filename w
            = Some (encodeWallet (unsafeToJSON w) newPassword salt))).
Proof.
  unfold changePassword. split.
  - intros Hsame. by rewrite decide_True.
  - intros Hdiff. cbv zeta. rewrite decide_False by done.
    set (w' := set_password w newPassword).
    split; [done|]. split.
    + by destruct (save w' fs salt).
    + intros Hw. unfold save, unsafeSave.
      destruct (saveWalletJSONToDisk_writable fs (unsafeToJSON w') (m_filename w')
                  (m_password w') salt Hw) as (fs' & -> & Hfile & _).
      by exists fs'.
Qed.

End Properties.

(** * The properties on the reference implementation *)

(** C1 on the sample wallet. *)
Lemma decode_encode_roundtrip_witness :
  length Toy.sampleSalt = 16%nat
  ∧ decodeWallet
      (encodeWallet (unsafeToJSON Toy.sampleWallet) "hunter2" Toy.sampleSalt) "hunter2"
    = inr (Toy.sampleSubWallets, Toy.sampleSynchronizer).
Proof.
  split; [reflexivity|].
  refine (proj1 (decode_encode_roundtrip Toy.sampleWallet "hunter2" Toy.sampleSalt
                   _ _ _ _ _)).
  - reflexivity.
  - vm_compute. reflexivity.
  - vm_compute. reflexivity.
  - eexists. split; [reflexivity | vm_compute; reflexivity].
  - eexists. split; [reflexivity | vm_compute; reflexivity].
Defined.

(** C2: a file without the identifier, a file cut inside the salt, the
    sample wallet opened with another password, and a wallet file of
    version 7. *)
Lemma decode_error_kinds_witness :
  decodeWallet [x4e; x4f] "hunter2" = inl NOT_A_WALLET_FILE
  ∧ decodeWallet (IS_A_WALLET_IDENTIFIER ++ [x01; x02; x03]) "hunter2"
    = inl WALLET_FILE_CORRUPTED
  ∧ decodeWallet
      (encodeWallet (unsafeToJSON Toy.sampleWallet) "hunter2" Toy.sampleSalt) "wrong"
    = inl WRONG_PASSWORD
  ∧ decodeWallet
      (encodeWallet
         (Writer_GetString (JObject [("walletFileFormatVersion"%string, JUint 7)]))
         "hunter2" Toy.sampleSalt) "hunter2"
    = inl UNSUPPORTED_WALLET_FILE_FORMAT_VERSION.
Proof.
  split; [|split; [|split]].
  - apply (proj1 (decode_error_kinds [x4e; x4f] "hunter2")).
    intros [k Hk]. discriminate Hk.
  - apply (proj1 (proj2 (decode_error_kinds _ "hunter2")) [x01; x02; x03]);
      [reflexivity | simpl; lia].
  - apply (proj2 (proj2 (decode_error_kinds _ "wrong")) Toy.sampleSalt
             (encryptWalletJSON (unsafeToJSON Toy.sampleWallet) "hunter2" Toy.sampleSalt));
      [reflexivity | reflexivity | vm_compute; reflexivity].
  - set (text := Writer_GetString (JObject [("walletFileFormatVersion"%string, JUint 7)])).
    destruct (proj2 (proj2 (decode_error_kinds
                              (encodeWallet text "hunter2" Toy.sampleSalt) "hunter2"))
                Toy.sampleSalt (encryptWalletJSON text "hunter2" Toy.sampleSalt)
                eq_refl eq_refl) as [_ Hdecrypted].
    destruct (Hdecrypted (IS_CORRECT_PASSWORD_IDENTIFIER ++ text))
      as (_ & _ & Hparsed); [vm_compute; reflexivity|].
    destruct (Hparsed text eq_refl) as [_ Hversion].
    apply (Hversion (JObject [("walletFileFormatVersion"%string, JUint 7)]) 7);
      [vm_compute; reflexivity | reflexivity | discriminate].
Defined.

(** C3: the prepared transaction 43 is sent once; the second call does
    not find it. *)
Lemma sendPreparedTransaction_at_most_once_witness :
  let first := sendPreparedTransaction Toy.preparedWallet 43 in
  first.1 = (SUCCESS, 43)
  ∧ m_preparedTransactions first.2 !! 43 = None
  ∧ sendPreparedTransaction first.2 43 = ((PREPARED_TRANSACTION_NOT_FOUND, 0), first.2).
Proof.
  intros first. split; [reflexivity|].
  refine (proj2 (sendPreparedTransaction_at_most_once Toy.preparedWallet 43)
            _ SUCCESS 43 first.2 _ _).
  - apply map_Forall_singleton. reflexivity.
  - vm_compute. reflexivity.
  - left. reflexivity.
Defined.


(** C5: the synchronizer of the sample wallet is at height 20; an import
    from height 10 resets it to 10 and drops the transactions from 10
    on, an import from height 30 leaves it at 20. *)
Lemma import_rescans_from_requested_height_witness :
  Toy.scanHeight (m_walletSynchronizer (importSubWallet Toy.sampleWallet 9 10).2) = 10
  ∧ Toy.transactions (m_subWallets (importSubWallet Toy.sampleWallet 9 10).2)
    = [(101, 5)]
  ∧ m_walletSynchronizer (importSubWallet Toy.sampleWallet 9 30).2
    = Toy.sampleSynchronizer.
Proof.
  pose proof (proj1 (import_rescans_from_requested_height Toy.sampleWallet 10)
                9 (Toy.addressOf 1009) (importSubWallet Toy.sampleWallet 9 10).2)
    as Hlow.
  pose proof (proj1 (import_rescans_from_requested_height Toy.sampleWallet 30)
                9 (Toy.addressOf 1009) (importSubWallet Toy.sampleWallet 9 30).2)
    as Hhigh.
  destruct Hlow as [Hlow _]; [vm_compute; reflexivity|].
  destruct Hhigh as [_ Hhigh]; [vm_compute; reflexivity|].
  destruct Hlow as [Hws Hsw]; [vm_compute; discriminate|].
  split; [|split].
  - rewrite Hws. reflexivity.
  - rewrite Hsw. reflexivity.
  - apply Hhigh. vm_compute. reflexivity.
Defined.

(** C6: the history of the sample wallet is at heights 5, 10, 10, 15. *)
Lemma getTransactionsRange_half_open_witness :
  Toy.blockHeight <$> getTransactionsRange Toy.blockHeight Toy.sampleWallet 10 15
  = [10; 10].
Proof.
  apply (proj2 (proj2 (getTransactionsRange_half_open Toy.blockHeight
                         Toy.sampleWallet 10 15))).
  reflexivity.
Defined.

(** C7: the view key of the tampered wallet is not the one derived from
    its spend key. *)
Lemma mnemonic_seed_requires_derived_view_key_witness :
  getMnemonicSeedForAddress Toy.tamperedWallet (Toy.addressOf 1007)
  = (KEYS_NOT_DETERMINISTIC, EmptyString)
  ∧ getMnemonicSeedForAddress Toy.sampleWallet (Toy.addressOf 1007)
    = (SUCCESS, PrivateKeyToMnemonic (7 : N)).
Proof.
  split.
  - refine (proj1 (proj1 (mnemonic_seed_requires_derived_view_key Toy.tamperedWallet
                            (Toy.addressOf 1007)) _ 7 0 _) _).
    + vm_compute. reflexivity.
    + vm_compute. reflexivity.
    + vm_compute. discriminate.
  - refine (proj2 (proj1 (mnemonic_seed_requires_derived_view_key Toy.sampleWallet
                            (Toy.addressOf 1007)) _ 7 0 _) _).
    + vm_compute. reflexivity.
    + vm_compute. reflexivity.
    + vm_compute. reflexivity.
Defined.

(** C8: the timestamp 300 stands for height 10, whatever height comes
    with it. *)
Lemma timestamp_converted_to_scan_height_witness :
  (300 : N) ≠ 0
  ∧ Toy.scanHeight
      (m_walletSynchronizer
         (reset Toy.sampleWallet 4 300 Toy.emptyDisk Toy.sampleSalt).1) = 10
  ∧ Toy.transactions
      (m_subWallets (rewind Toy.sampleWallet 4 300 Toy.emptyDisk Toy.sampleSalt).1)
    = [(101, 5)].
Proof.
  split; [discriminate|].
  destruct (timestamp_converted_to_scan_height Toy.sampleWallet 4 300
              Toy.emptyDisk Toy.sampleSalt) as [(Hws & _ & _) (_ & Hsw & _)];
    [discriminate|].
  split.
  - rewrite Hws. reflexivity.
  - rewrite Hsw. reflexivity.
Defined.


(** C10: the same password changes nothing; a new one is stored and the
    wallet is written under it. *)
Lemma changePassword_saves_unless_same_witness :
  changePassword Toy.sampleWallet "hunter2" Toy.emptyDisk Toy.sampleSalt
  = (SUCCESS, Toy.sampleWallet, Toy.emptyDisk)
  ∧ m_password
      (changePassword Toy.sampleWallet "correct horse" Toy.emptyDisk Toy.sampleSalt).1.2
    = "correct horse"%string
  ∧ (changePassword Toy.sampleWallet "correct horse" Toy.emptyDisk Toy.sampleSalt).1.1
    = SUCCESS.
Proof.
  split; [|split].
  - apply (proj1 (changePassword_saves_unless_same Toy.sampleWallet "hunter2"
                    Toy.emptyDisk Toy.sampleSalt)). reflexivity.
  - destruct (proj2 (changePassword_saves_unless_same Toy.sampleWallet "correct horse"
                       Toy.emptyDisk Toy.sampleSalt)) as (_ & -> & _);
      [discriminate | reflexivity].
  - destruct (proj2 (changePassword_saves_unless_same Toy.sampleWallet "correct horse"
                       Toy.emptyDisk Toy.sampleSalt)) as (_ & _ & Hsaved);
      [discriminate|].
    destruct Hsaved as (fs' & -> & _); reflexivity.
Defined.

(** * Further properties of the code *)

Section MoreProperties.

Context {SecretKey PublicKey Hash Transaction PreparedTransactionInfo
         FeeType Nigel SubWallets WalletSynchronizer : Type}.
Context `{Countable Hash} `{EqDecision SecretKey}.
Context `{Constants} `{CryptoPP} `{RapidJson}.
Context `{!Crypto SecretKey PublicKey}.
Context `{!SubWalletsOps SecretKey PublicKey Transaction SubWallets}.
Context `{!WalletSynchronizerOps SecretKey WalletSynchronizer}.
Context `{!SendTransactionOps Hash PreparedTransactionInfo FeeType Nigel SubWallets}.
Context `{!ImportOps SecretKey SubWallets}.
Context `{WalletConfig} `{InputOps}.

Variable blockHeight : Transaction → N.

Abbreviation Wallet :=
  (@WalletBackend Hash PreparedTransactionInfo Nigel SubWallets WalletSynchronizer _ _).

Implicit Types (w : Wallet) (fs : FileSystem) (sw : SubWallets)
  (ws : WalletSynchronizer) (buffer salt : bytes) (password filename : string).

(** ** The identifiers and the wallet file *)

(** X1. [hasMagicIdentifier], called with two errors that are not
    [SUCCESS], returns [SUCCESS] exactly when the buffer starts with the
    identifier; the buffer is then the identifier followed by what is
    returned.  On failure the buffer comes back untouched with one of
    the two errors. *)
Theorem hasMagicIdentifier_decides_prefix
    (data identifier : bytes) (tooSmallError wrongIdentifierError : Error) :
  tooSmallError ≠ SUCCESS →
  wrongIdentifierError ≠ SUCCESS →
  let result := hasMagicIdentifier data identifier tooSmallError wrongIdentifierError in
  (result.1 = SUCCESS ↔ identifier `prefix_of` data)
  ∧ (result.1 = SUCCESS → data = identifier ++ result.2)
  ∧ (result.1 ≠ SUCCESS →
     result.2 = data
     ∧ (result.1 = tooSmallError ∨ result.1 = wrongIdentifierError)).
Proof.
  intros Hsmall Hwrong. cbv zeta.
  destruct (decide (identifier `prefix_of` data)) as [[rest ->]|Hno].
  - rewrite hasMagicIdentifier_present. simpl.
    split; [|split]; [| done | done].
    split; [intros _; by apply prefix_app_r | done].
  - rewrite hasMagicIdentifier_absent by done. simpl.
    assert ((if (length data <? length identifier)%nat
             then tooSmallError else wrongIdentifierError) ≠ SUCCESS) as Herr
      by (by case_match).
    split; [|split]; [split |  | ]; try done.
    intros _. split; [done|]. case_match; auto.
Qed.


(** X3. [saveWalletJSONToDisk] either fails with
    [INVALID_WALLET_FILENAME] and leaves the disk untouched, or replaces
    the content of the file, whatever it was, by the wallet identifier,
    the salt and the encrypted data, touching no other file. *)
Theorem saveWalletJSONToDisk_replaces_file fs (walletJSON : bytes)
    filename password salt :
  saveWalletJSONToDisk fs walletJSON filename password salt
  = if fs_writable fs filename
    then (SUCCESS,
          mkFileSystem
            (<[filename := encodeWallet walletJSON password salt]> (fs_files fs))
            (fs_writable fs))
    else (INVALID_WALLET_FILENAME, fs).
Proof.
  unfold saveWalletJSONToDisk, ofstream_open.
  destruct (fs_writable fs filename); [|done].
  unfold ofstream_write, encodeWallet. simpl.
  rewrite !lookup_insert_eq. simpl.
  rewrite !insert_insert_eq. by rewrite <- !app_assoc.
Qed.

(** X4. The file starts with the wallet identifier, followed by the 16
    bytes of the salt in clear; two encodings that are equal were made
    with the same salt, so saves that draw different salts write
    different files. *)
Theorem encodeWallet_salt_in_clear (walletJSON : bytes) password salt :
  length salt = 16%nat →
  take (length IS_A_WALLET_IDENTIFIER) (encodeWallet walletJSON password salt)
  = IS_A_WALLET_IDENTIFIER
  ∧ take 16 (drop (length IS_A_WALLET_IDENTIFIER)
               (encodeWallet walletJSON password salt)) = salt
  ∧ (∀ (walletJSON' : bytes) password' salt',
       length salt' = 16%nat →
       encodeWallet walletJSON password salt
       = encodeWallet walletJSON' password' salt' →
       salt = salt').
Proof.
  intros Hsalt. unfold encodeWallet.
  assert (∀ s (rest : bytes), length s = 16%nat →
            take 16 (drop (length IS_A_WALLET_IDENTIFIER)
                       (IS_A_WALLET_IDENTIFIER ++ s ++ rest)) = s) as Hread.
  { intros s rest Hs. rewrite drop_app_length, <- Hs. apply take_app_length. }
  split; [apply take_app_length|]. split; [by apply Hread|].
  intros walletJSON' password' salt' Hsalt' Heq.
  rewrite <- (Hread salt (encryptWalletJSON walletJSON password salt)) by done.
  rewrite Heq. by apply Hread.
Qed.


(** X6. A file shorter than the wallet identifier and the salt together
    (the empty file among them) is refused with [NOT_A_WALLET_FILE] or
    [WALLET_FILE_CORRUPTED], and with the same error whatever the
    password. *)
Theorem decodeWallet_short_file buffer password :
  (length buffer < length IS_A_WALLET_IDENTIFIER + 16)%nat →
  (decodeWallet buffer password = inl NOT_A_WALLET_FILE
   ∨ decodeWallet buffer password = inl WALLET_FILE_CORRUPTED)
  ∧ ∀ password', decodeWallet buffer password' = decodeWallet buffer password.
Proof.
  intros Hlen.
  destruct (decide (IS_A_WALLET_IDENTIFIER `prefix_of` buffer)) as [[rest ->]|Hno].
  - rewrite length_app in Hlen.
    assert (∀ p, decodeWallet (IS_A_WALLET_IDENTIFIER ++ rest) p
                 = inl WALLET_FILE_CORRUPTED) as Hall.
    { intros p. unfold decodeWallet. rewrite hasMagicIdentifier_present. simpl.
      by destruct (Nat.ltb_spec (length rest) 16); [|lia]. }
    split; [right; apply Hall | intros p; by rewrite !Hall].
  - assert (∀ p, decodeWallet buffer p = inl NOT_A_WALLET_FILE) as Hall.
    { intros p. unfold decodeWallet. rewrite hasMagicIdentifier_absent by done.
      by destruct (length buffer <? length IS_A_WALLET_IDENTIFIER)%nat. }
    split; [left; apply Hall | intros p; by rewrite !Hall].
Qed.

(** The wallet [openWallet] returns when it decodes [w]. *)
Lemma decodeWallet_unsafeToJSON w password salt :
  length salt = 16%nat →
  cipher_inverts (PBKDF2_DeriveKey 16 password salt PBKDF2_ITERATIONS) salt
    (IS_CORRECT_PASSWORD_IDENTIFIER ++ unsafeToJSON w) →
  json_text_roundtrips (walletDocument (m_subWallets w) (m_walletSynchronizer w)) →
  subWallets_roundtrips (m_subWallets w) →
  walletSynchronizer_roundtrips (m_walletSynchronizer w) →
  decodeWallet (encodeWallet (unsafeToJSON w) password salt) password
  = inr (m_subWallets w, m_walletSynchronizer w).
Proof.
  intros Hsalt Hcipher Hjson Hsw Hws.
  rewrite decodeWallet_encodeWallet by done.
  unfold unsafeToJSON. rewrite c_str_idemp.
  red in Hjson. rewrite Hjson.
  by rewrite fromJSON_walletDocument.
Qed.

(** X7. Saving a wallet and opening the file with the wallet's password
    gives a wallet with the same file name, password, registry and
    synchronizer, and with an empty cache: prepared transactions are not
    written to the file.  The file must open for writing, and the
    cipher, the JSON text and the collaborators' JSON must round-trip on
    the wallet's values. *)
Theorem save_then_openWallet w fs salt daemonHost daemonPort daemonSSL :
  fs_writable fs (m_filename w) = true →
  length salt = 16%nat →
  cipher_inverts (PBKDF2_DeriveKey 16 (m_password w) salt PBKDF2_ITERATIONS) salt
    (IS_CORRECT_PASSWORD_IDENTIFIER ++ unsafeToJSON w) →
  json_text_roundtrips (walletDocument (m_subWallets w) (m_walletSynchronizer w)) →
  subWallets_roundtrips (m_subWallets w) →
  walletSynchronizer_roundtrips (m_walletSynchronizer w) →
  (save w fs salt).1 = SUCCESS
  ∧ openWallet (save w fs salt).2 (m_filename w) (m_password w)
      daemonHost daemonPort daemonSSL
    = (SUCCESS,
       Some (mkWalletBackend (m_filename w) (m_password w)
               (Nigel_new daemonHost daemonPort daemonSSL)
               (m_subWallets w) (m_walletSynchronizer w) ∅)).
Proof.
  intros Hw Hsalt Hcipher Hjson Hsw Hws.
  destruct (openWallet_after_save w fs salt daemonHost daemonPort daemonSSL Hw)
    as (fs' & Hsave & Hopen).
  rewrite Hsave. simpl. split; [done|].
  rewrite Hopen. by rewrite decodeWallet_unsafeToJSON.
Qed.

(** X8. After [changePassword] to another password, the file opens with
    the new password and holds the same registry and synchronizer, under
    the same conditions on the disk, the cipher and the JSON as for a
    save. *)
Theorem changePassword_then_openWallet w newPassword fs salt
    daemonHost daemonPort daemonSSL :
  m_password w ≠ newPassword →
  fs_writable fs (m_filename w) = true →
  length salt = 16%nat →
  cipher_inverts (PBKDF2_DeriveKey 16 newPassword salt PBKDF2_ITERATIONS) salt
    (IS_CORRECT_PASSWORD_IDENTIFIER ++ unsafeToJSON w) →
  json_text_roundtrips (walletDocument (m_subWallets w) (m_walletSynchronizer w)) →
  subWallets_roundtrips (m_subWallets w) →
  walletSynchronizer_roundtrips (m_walletSynchronizer w) →
  let changed := changePassword w newPassword fs salt in
  changed.1 = (SUCCESS, set_password w newPassword)
  ∧ openWallet changed.2 (m_filename w) newPassword daemonHost daemonPort daemonSSL
    = (SUCCESS,
       Some (mkWalletBackend (m_filename w) newPassword
               (Nigel_new daemonHost daemonPort daemonSSL)
               (m_subWallets w) (m_walletSynchronizer w) ∅)).
Proof.
  intros Hdiff Hw Hsalt Hcipher Hjson Hsw Hws. cbv zeta.
  unfold changePassword. rewrite decide_False by done.
  destruct (openWallet_after_save (set_password w newPassword) fs salt
              daemonHost daemonPort daemonSSL Hw) as (fs' & Hsave & Hopen).
  rewrite Hsave. simpl. split; [done|].
  simpl in Hopen. rewrite Hopen.
  by rewrite (decodeWallet_unsafeToJSON (set_password w newPassword)).
Qed.

(** ** The constructors that import *)


(** X10. With a name that is free and writable, an import that fails a
    validation returns the error of the first check that fails, in the
    order of the source (the mnemonic, then the derived view key; the
    view key, then the spend key; the view key, then the address), no
    wallet, and the disk exactly as it was: no file is left behind. *)
Theorem failed_import_leaves_no_file fs filename password scanHeight
    daemonHost daemonPort daemonSSL salt :
  fs_files fs !! filename = None →
  fs_writable fs filename = true →
  (∀ mnemonicSeed,
     let decoded := MnemonicToPrivateKey mnemonicSeed in
     let viewError := validatePrivateKey (generateViewFromSpend decoded.2) in
     (decoded.1 ≠ SUCCESS →
        importWalletFromSeed fs mnemonicSeed filename password scanHeight
          daemonHost daemonPort daemonSSL salt = (decoded.1, None, fs))
     ∧ (decoded.1 = SUCCESS → viewError ≠ SUCCESS →
        importWalletFromSeed fs mnemonicSeed filename password scanHeight
          daemonHost daemonPort daemonSSL salt = (viewError, None, fs)))
  ∧ (∀ privateSpendKey privateViewKey,
       (validatePrivateKey privateViewKey ≠ SUCCESS →
          importWalletFromKeys fs privateSpendKey privateViewKey filename password
            scanHeight daemonHost daemonPort daemonSSL salt
          = (validatePrivateKey privateViewKey, None, fs))
       ∧ (validatePrivateKey privateViewKey = SUCCESS →
          validatePrivateKey privateSpendKey ≠ SUCCESS →
          importWalletFromKeys fs privateSpendKey privateViewKey filename password
            scanHeight daemonHost daemonPort daemonSSL salt
          = (validatePrivateKey privateSpendKey, None, fs)))
  ∧ (∀ privateViewKey address,
       (validatePrivateKey privateViewKey ≠ SUCCESS →
          importViewWallet fs privateViewKey address filename password
            scanHeight daemonHost daemonPort daemonSSL salt
          = (validatePrivateKey privateViewKey, None, fs))
       ∧ (validatePrivateKey privateViewKey = SUCCESS →
          validateAddresses [address] false ≠ SUCCESS →
          importViewWallet fs privateViewKey address filename password
            scanHeight daemonHost daemonPort daemonSSL salt
          = (validateAddresses [address] false, None, fs))).
Proof.
  intros Hfree Hw.
  pose proof (checkNewWalletFilename_free fs filename Hfree Hw) as Hcheck.
  unfold importWalletFromSeed, importWalletFromKeys, importViewWallet.
  rewrite Hcheck. simpl.
  split; [|split].
  - intros mnemonicSeed. cbv zeta.
    destruct (MnemonicToPrivateKey mnemonicSeed) as [mnemonicError privateSpendKey].
    simpl. split.
    + intros Herr. apply is_error_true in Herr. by rewrite Herr.
    + intros -> Hview. simpl. by rewrite decide_True.
  - intros privateSpendKey privateViewKey. split.
    + intros Hview. by rewrite decide_True.
    + intros Hview Hspend. rewrite Hview.
      rewrite decide_False by (by intros ?). by rewrite decide_True.
  - intros privateViewKey address. split.
    + intros Hview. by rewrite decide_True.
    + intros Hview Haddress. rewrite Hview.
      rewrite decide_False by (by intros ?). by rewrite decide_True.
Qed.

(** The wallet the standard constructor builds. *)
Lemma newWalletBackend_fields filename password
    (privateSpendKey privateViewKey : SecretKey) scanHeight newWallet
    daemonHost daemonPort daemonSSL :
  let wallet : Wallet :=
    newWalletBackend filename password privateSpendKey privateViewKey
      scanHeight newWallet daemonHost daemonPort daemonSSL in
  m_filename wallet = filename
  ∧ m_password wallet = password
  ∧ m_subWallets wallet
    = SubWallets_new privateSpendKey privateViewKey
        (privateKeysToAddress privateSpendKey privateViewKey) scanHeight newWallet
  ∧ m_preparedTransactions wallet = ∅.
Proof.
  cbv zeta. unfold newWalletBackend.
  by destruct (sw_getMinInitialSyncStart _) as [startHeight startTimestamp].
Qed.

(** X11. [importWalletFromSeed] with a free, writable name, a mnemonic
    that decodes and a derived view key that validates returns
    [SUCCESS] with a wallet whose registry is built from the decoded
    spend key and the view key derived from it, at the requested scan
    height and with [newWallet = false]; the file holds the encoded
    wallet and no other file changed. *)
Theorem importWalletFromSeed_builds_from_seed fs mnemonicSeed filename password
    scanHeight daemonHost daemonPort daemonSSL salt privateSpendKey :
  fs_files fs !! filename = None →
  fs_writable fs filename = true →
  MnemonicToPrivateKey mnemonicSeed = (SUCCESS, privateSpendKey) →
  validatePrivateKey (generateViewFromSpend privateSpendKey) = SUCCESS →
  let privateViewKey := generateViewFromSpend privateSpendKey in
  ∃ wallet fs',
    importWalletFromSeed fs mnemonicSeed filename password scanHeight
      daemonHost daemonPort daemonSSL salt = (SUCCESS, Some wallet, fs')
    ∧ m_filename wallet = filename
    ∧ m_password wallet = password
    ∧ m_subWallets wallet
      = SubWallets_new privateSpendKey privateViewKey
          (privateKeysToAddress privateSpendKey privateViewKey) scanHeight false
    ∧ fs_files fs' !! filename
      = Some (encodeWallet (unsafeToJSON wallet) password salt)
    ∧ (∀ other, filename ≠ other → fs_files fs' !! other = fs_files fs !! other).
Proof.
  intros Hfree Hw Hseed Hview. cbv zeta.
  unfold importWalletFromSeed.
  rewrite (checkNewWalletFilename_free fs filename Hfree Hw). simpl.
  rewrite Hseed. simpl. rewrite Hview. simpl.
  set (wallet := newWalletBackend _ _ _ _ _ _ _ _ _).
  destruct (newWalletBackend_fields filename password privateSpendKey
              (generateViewFromSpend privateSpendKey) scanHeight false
              daemonHost daemonPort daemonSSL) as (Hf & Hp & Hsw & _).
  fold wallet in Hf, Hp, Hsw.
  unfold save, unsafeSave. rewrite Hf, Hp.
  destruct (saveWalletJSONToDisk_writable fs (unsafeToJSON wallet) filename
              password salt Hw) as (fs' & -> & Hfile & Hother & _).
  by exists wallet, fs'.
Qed.

(** X12. A seed exported by [getMnemonicSeedForAddress] recovers the
    keys of the wallet: when the mnemonic decodes back to the key it was
    made from and the view key validates, [importWalletFromSeed] on that
    seed builds its registry from the exported private spend key and the
    private view key of the original wallet. *)
Theorem exported_seed_recovers_keys w address seed fs filename password
    scanHeight daemonHost daemonPort daemonSSL salt :
  getMnemonicSeedForAddress w address = (SUCCESS, seed) →
  let privateSpendKey := (getSpendKeys w address).1.2 in
  MnemonicToPrivateKey (PrivateKeyToMnemonic privateSpendKey)
  = (SUCCESS, privateSpendKey) →
  validatePrivateKey (getPrivateViewKey w) = SUCCESS →
  fs_files fs !! filename = None →
  fs_writable fs filename = true →
  ∃ wallet fs',
    importWalletFromSeed fs seed filename password scanHeight
      daemonHost daemonPort daemonSSL salt = (SUCCESS, Some wallet, fs')
    ∧ m_subWallets wallet
      = SubWallets_new privateSpendKey (getPrivateViewKey w)
          (privateKeysToAddress privateSpendKey (getPrivateViewKey w))
          scanHeight false.
Proof.
  intros Hseed privateSpendKey Hmnemonic Hview Hfree Hw.
  assert (generateViewFromSpend privateSpendKey = getPrivateViewKey w
          ∧ seed = PrivateKeyToMnemonic privateSpendKey) as [Hderived ->].
  { revert Hseed. subst privateSpendKey. unfold getMnemonicSeedForAddress.
    destruct (decide (validateAddresses [address] false ≠ SUCCESS));
      [intros [= ? ?]; congruence|].
    destruct (getSpendKeys w address) as [[[error publicSpendKey] key] walletIndex].
    simpl. destruct (is_error error) eqn:Herror; [intros [= -> _]; done|].
    destruct (decide (generateViewFromSpend key ≠ getPrivateViewKey w))
      as [Hne|Heq]; [done|].
    intros [= <-]. split; [|done].
    by destruct (decide (generateViewFromSpend key = getPrivateViewKey w)). }
  unfold importWalletFromSeed.
  rewrite (checkNewWalletFilename_free fs filename Hfree Hw). simpl.
  rewrite Hmnemonic. simpl. rewrite Hderived, Hview. simpl.
  set (wallet := newWalletBackend _ _ _ _ _ _ _ _ _).
  destruct (save wallet fs salt) as [error fs'] eqn:Hsave.
  assert (error = SUCCESS) as ->.
  { revert Hsave. unfold save, unsafeSave.
    destruct (newWalletBackend_fields filename password privateSpendKey
                (getPrivateViewKey w) scanHeight false
                daemonHost daemonPort daemonSSL) as (Hf & _).
    fold wallet in Hf. rewrite Hf.
    destruct (saveWalletJSONToDisk_writable fs (unsafeToJSON wallet) filename
                (m_password wallet) salt Hw) as (fs0 & -> & _).
    by intros [= <- _]. }
  exists wallet, fs'. split; [done|].
  by destruct (newWalletBackend_fields filename password privateSpendKey
                 (getPrivateViewKey w) scanHeight false
                 daemonHost daemonPort daemonSSL) as (_ & _ & Hsw & _).
Qed.

(** ** The cache of prepared transactions *)

(** X13. [sendPreparedTransaction] never adds to the cache and never
    changes an entry: the cache after the call is contained in the cache
    before.  When the call returns an error other than
    [PREPARED_TRANSACTION_EXPIRED] the cache is the same, so the
    transaction can be sent again.  File name and password are never
    touched. *)
Theorem sendPreparedTransaction_only_removes w hash :
  let sent := sendPreparedTransaction w hash in
  m_preparedTransactions sent.2 ⊆ m_preparedTransactions w
  ∧ (sent.1.1 ≠ SUCCESS → sent.1.1 ≠ PREPARED_TRANSACTION_EXPIRED →
     m_preparedTransactions sent.2 = m_preparedTransactions w)
  ∧ m_filename sent.2 = m_filename w
  ∧ m_password sent.2 = m_password w.
Proof.
  cbv zeta. destruct (m_preparedTransactions w !! hash) as [prepared|] eqn:Hin.
  - destruct (sendPreparedTransaction_cache w hash prepared Hin) as [Herror Hcache].
    rewrite Herror, Hcache.
    set (error := (SendTransaction_sendPreparedTransaction prepared
                     (m_daemon w) (m_subWallets w)).1.1.1).
    split; [|split].
    + destruct (bool_decide (error = PREPARED_TRANSACTION_EXPIRED)
                || negb (is_error error)); [apply delete_subseteq | done].
    + intros Hs He. apply is_error_true in Hs.
      rewrite Hs, bool_decide_eq_false_2 by done. done.
    + unfold sendPreparedTransaction. rewrite Hin.
      destruct (SendTransaction_sendPreparedTransaction _ _ _)
        as [[[e sentHash] daemon] sw].
      by destruct (bool_decide (e = PREPARED_TRANSACTION_EXPIRED) || negb (is_error e)).
  - unfold sendPreparedTransaction. rewrite Hin. done.
Qed.

(** X14. [removePreparedTransaction] returns true exactly when the hash
    was cached; afterwards the hash is not cached and every other entry
    is as before; removing the same hash again returns false and changes
    nothing. *)
Theorem removePreparedTransaction_reports_and_is_idempotent w hash :
  let removed := removePreparedTransaction w hash in
  (removed.1 = true ↔ is_Some (m_preparedTransactions w !! hash))
  ∧ m_preparedTransactions removed.2 !! hash = None
  ∧ (∀ other, other ≠ hash →
       m_preparedTransactions removed.2 !! other = m_preparedTransactions w !! other)
  ∧ removePreparedTransaction removed.2 hash = (false, removed.2).
Proof.
  cbv zeta. split; [|split; [|split]].
  - unfold removePreparedTransaction. simpl. apply bool_decide_eq_true.
  - apply removePreparedTransaction_lookup.
  - intros other Hne. unfold removePreparedTransaction. simpl.
    by apply lookup_delete_ne.
  - apply removePreparedTransaction_twice.
Qed.

(** X15. A prepare operation touches at most the entry of the hash it
    returns.  After a deferred build without error, the entry under the
    returned hash is the prepared transaction, and
    [sendPreparedTransaction] on that hash hands exactly this prepared
    transaction to the sender. *)
Theorem prepare_then_send w destination amount paymentID
    sendAll sendTransaction deadline error hash prepared w' :
  sendTransactionBasic w destination amount paymentID sendAll sendTransaction deadline
  = ((error, hash, prepared), w') →
  (∀ other, other ≠ hash →
     m_preparedTransactions w' !! other = m_preparedTransactions w !! other)
  ∧ (sendTransaction = false → error = SUCCESS →
     m_preparedTransactions w' !! hash = Some prepared
     ∧ (sendPreparedTransaction w' hash).1
       = (SendTransaction_sendPreparedTransaction prepared
            (m_daemon w') (m_subWallets w')).1.1).
Proof.
  intros Hcall.
  destruct (sendTransactionBasic_cache w destination amount paymentID
              sendAll sendTransaction deadline) as [Hres Hcache].
  rewrite Hcall in Hres, Hcache. simpl in Hres, Hcache.
  rewrite <- Hres in Hcache. simpl in Hcache. split.
  - intros other Hne. rewrite Hcache.
    case_match; [by rewrite lookup_insert_ne | done].
  - intros -> ->. simpl in Hcache.
    assert (m_preparedTransactions w' !! hash = Some prepared) as Hin
      by (rewrite Hcache; apply lookup_insert_eq).
    split; [done|].
    unfold sendPreparedTransaction. rewrite Hin.
    destruct (SendTransaction_sendPreparedTransaction _ _ _)
      as [[[e sentHash] daemon] sw].
    done.
Qed.

(** ** Resetting, rewinding and importing *)

(** What the save at the end of [reset], [rewind] and [scanRange] does
    to the disk. *)
Lemma unsafeSave_disk w fs salt :
  (unsafeSave w fs salt).2
  = if fs_writable fs (m_filename w)
    then mkFileSystem
           (<[m_filename w := encodeWallet (unsafeToJSON w) (m_password w) salt]>
              (fs_files fs))
           (fs_writable fs)
    else fs.
Proof.
  unfold unsafeSave, saveWalletJSONToDisk, ofstream_open.
  destruct (fs_writable fs (m_filename w)); [|done].
  unfold ofstream_write, encodeWallet. simpl.
  rewrite !lookup_insert_eq. simpl.
  rewrite !insert_insert_eq. by rewrite <- !app_assoc.
Qed.

(** X16. [scanRange] is [rewind] without a timestamp followed by
    [setEndScanHeight] on the synchronizer, and the file it writes holds
    the wallet with the end height set. *)
Theorem scanRange_is_rewind_with_end w scanHeight endScanHeight fs salt :
  let rewound := (rewind w scanHeight 0 fs salt).1 in
  let scanned := scanRange w scanHeight endScanHeight fs salt in
  scanned.1
  = set_walletSynchronizer rewound
      (ws_setEndScanHeight (m_walletSynchronizer rewound) endScanHeight)
  ∧ m_walletSynchronizer scanned.1
    = ws_setEndScanHeight
        (ws_rewind (m_walletSynchronizer w) scanHeight) endScanHeight
  ∧ m_subWallets scanned.1 = sw_rewind (m_subWallets w) scanHeight
  ∧ (fs_writable fs (m_filename w) = true →
     fs_files scanned.2 !! m_filename w
     = Some (encodeWallet (unsafeToJSON scanned.1) (m_password w) salt)).
Proof.
  cbv zeta. unfold scanRange, rewind. simpl.
  split; [done|]. split; [done|]. split; [done|].
  intros Hw. rewrite unsafeSave_disk. simpl. rewrite Hw. simpl.
  apply lookup_insert_eq.
Qed.

(** X17. [reset] and [rewind] keep the file name, the password and the
    prepared transactions of the wallet, and write the wallet as it is
    after the cut: when the file opens for writing it holds the encoding
    of the returned wallet and no other file changes; when it does not,
    the error of the save is dropped, the disk is as before and the
    wallet is cut all the same. *)
Theorem reset_and_rewind_persist w scanHeight timestamp fs salt :
  ∀ result,
    result = reset w scanHeight timestamp fs salt
    ∨ result = rewind w scanHeight timestamp fs salt →
    m_filename result.1 = m_filename w
    ∧ m_password result.1 = m_password w
    ∧ m_preparedTransactions result.1 = m_preparedTransactions w
    ∧ (fs_writable fs (m_filename w) = true →
       fs_files result.2 !! m_filename w
       = Some (encodeWallet (unsafeToJSON result.1) (m_password w) salt)
       ∧ ∀ other, m_filename w ≠ other →
           fs_files result.2 !! other = fs_files fs !! other)
    ∧ (fs_writable fs (m_filename w) = false → result.2 = fs).
Proof.
  intros result [-> | ->]; unfold reset, rewind;
    destruct (negb (timestamp =? 0)); simpl;
    rewrite unsafeSave_disk; simpl;
    (split; [done|]; split; [done|]; split; [done|]; split;
     [ intros ->; simpl; split;
       [ apply lookup_insert_eq | intros other Hne; by apply lookup_insert_ne ]
     | by intros -> ]).
Qed.

(** X18. An import of a sub-wallet that returns an error leaves the
    synchronizer where it was; and no import, failed or not, touches the
    file name, the password or the prepared transactions. *)
Theorem failed_import_keeps_synchronizer w scanHeight :
  ∀ result,
    (∃ privateSpendKey, result = importSubWallet w privateSpendKey scanHeight)
    ∨ (∃ walletIndex, result = importSubWalletIndex w walletIndex scanHeight)
    ∨ (∃ publicSpendKey, result = importViewSubWallet w publicSpendKey scanHeight) →
    (result.1.1 ≠ SUCCESS → m_walletSynchronizer result.2 = m_walletSynchronizer w)
    ∧ m_filename result.2 = m_filename w
    ∧ m_password result.2 = m_password w
    ∧ m_preparedTransactions result.2 = m_preparedTransactions w.
Proof.
  intros result [[key ->] | [[index ->] | [key ->]]].
  - unfold importSubWallet.
    destruct (decide (validatePrivateKey key ≠ SUCCESS)); [done|].
    destruct (sw_importSubWallet _ _ _) as [[error address] sw']. simpl.
    destruct (is_error error) eqn:Herror; simpl.
    + done.
    + apply is_error_false in Herror as ->.
      by destruct (scanHeight <=? ws_getCurrentScanHeight (m_walletSynchronizer w)).
  - unfold importSubWalletIndex.
    destruct (sw_importSubWalletIndex _ _ _) as [[error address] sw']. simpl.
    destruct (is_error error) eqn:Herror; simpl.
    + done.
    + apply is_error_false in Herror as ->.
      by destruct (scanHeight <=? ws_getCurrentScanHeight (m_walletSynchronizer w)).
  - unfold importViewSubWallet.
    destruct (decide (validatePublicKey key ≠ SUCCESS)); [done|].
    destruct (sw_importViewSubWallet _ _ _) as [[error address] sw']. simpl.
    destruct (is_error error) eqn:Herror; simpl.
    + done.
    + apply is_error_false in Herror as ->.
      by destruct (scanHeight <=? ws_getCurrentScanHeight (m_walletSynchronizer w)).
Qed.

(** ** Keys and history, continued *)

(** X19. [getMnemonicSeedForAddress] never returns a seed next to an
    error: with any error the seed is empty.  An address that does not
    validate gives the validation error; a valid address the registry
    does not know gives the registry's error. *)
Theorem mnemonic_seed_empty_on_error w address :
  let result := getMnemonicSeedForAddress w address in
  (result.1 ≠ SUCCESS → result.2 = EmptyString)
  ∧ (validateAddresses [address] false ≠ SUCCESS →
     result = (validateAddresses [address] false, EmptyString))
  ∧ (validateAddresses [address] false = SUCCESS →
     ∀ error privateSpendKey walletIndex,
       sw_getPrivateSpendKey (m_subWallets w) (addressToKeys address).1
       = (error, privateSpendKey, walletIndex) →
       error ≠ SUCCESS →
       result = (error, EmptyString)).
Proof.
  cbv zeta. split; [|split].
  - unfold getMnemonicSeedForAddress.
    destruct (decide (validateAddresses [address] false ≠ SUCCESS)); [done|].
    destruct (getSpendKeys w address) as [[[error publicSpendKey] key] walletIndex].
    simpl. destruct (is_error error); [done|].
    by destruct (decide (generateViewFromSpend key ≠ getPrivateViewKey w)).
  - intros Hinvalid. unfold getMnemonicSeedForAddress. by rewrite decide_True.
  - intros Hvalid error privateSpendKey walletIndex Hkey Herror.
    unfold getMnemonicSeedForAddress, getSpendKeys. rewrite Hvalid.
    rewrite !decide_False by (by intros ?).
    destruct (addressToKeys address) as [publicSpendKey publicViewKey].
    simpl in Hkey. rewrite Hkey. simpl.
    apply is_error_true in Herror. by rewrite Herror.
Qed.

(** X20. [getTransactionsRange] returns nothing when the end height is
    not above the start height, and two adjacent ranges make up the
    range that spans them: for [a ≤ b ≤ c] the transactions of
    [[a, c)] are those of [[a, b)] together with those of [[b, c)], each
    as often. *)
Theorem getTransactionsRange_adjacent w (a b c : N) :
  (c ≤ a → getTransactionsRange blockHeight w a c = [])
  ∧ (a ≤ b → b ≤ c →
     getTransactionsRange blockHeight w a c
     ≡ₚ getTransactionsRange blockHeight w a b
        ++ getTransactionsRange blockHeight w b c).
Proof.
  unfold getTransactionsRange. split.
  - intros Hca. induction (getTransactions w) as [|tx l IH]; simpl; [done|].
    destruct (N.leb_spec a (blockHeight tx)), (N.ltb_spec (blockHeight tx) c);
      simpl; try done; lia.
  - intros Hab Hbc. induction (getTransactions w) as [|tx l IH]; simpl; [done|].
    destruct (N.leb_spec a (blockHeight tx)), (N.ltb_spec (blockHeight tx) c),
      (N.ltb_spec (blockHeight tx) b), (N.leb_spec b (blockHeight tx));
      simpl; try lia; try done.
    + by rewrite IH.
    + rewrite IH. apply Permutation_middle.
Qed.

(** ** The prompt and the terminal input *)

Lemma std_equal_rev_suffix (extension name : bytes) :
  std_equal (rev extension) (rev name) = true ↔ extension `suffix_of` name.
Proof.
  rewrite std_equal_prefix. split.
  - intros [k Hk]. exists (rev k).
    rewrite <- (rev_involutive name), Hk, rev_app_distr.
    by rewrite rev_involutive.
  - intros [k ->]. exists (rev k). apply rev_app_distr.
Qed.

Lemma find_last_of_app c (l t : bytes) i :
  find_last_of c t = Some i →
  find_last_of c (l ++ t) = Some (length l + i)%nat.
Proof.
  intros Ht. induction l as [|b l IH]; simpl; [done|]. by rewrite IH.
Qed.

(** X21. [getPrompt] shows the wallet's file name without a final
    [".wallet"], cut to 20 characters, between ["["], the ticker and a
    space, and ["]: "]: for a file [name.wallet] it shows [name] (dots in
    [name] do not matter), for a file of at least 7 characters that does
    not end in [".wallet"] the whole name; the prompt is never longer
    than the ticker plus 25 characters. *)
Theorem getPrompt_strips_extension w :
  (∀ name : bytes,
     getWalletLocation w = String.string_of_list_byte (name ++ dotWallet) →
     getPrompt w = [x5b] ++ ticker ++ [x20] ++ take 20 name ++ [x5d; x3a; x20])
  ∧ (∀ fileName : bytes,
       getWalletLocation w = String.string_of_list_byte fileName →
       (length dotWallet ≤ length fileName)%nat →
       ¬ dotWallet `suffix_of` fileName →
       getPrompt w = [x5b] ++ ticker ++ [x20] ++ take 20 fileName ++ [x5d; x3a; x20])
  ∧ (length (getPrompt w) ≤ length ticker + 25)%nat.
Proof.
  split; [|split].
  - intros name Hname. unfold getPrompt. rewrite Hname.
    rewrite String.list_byte_of_string_of_list_byte.
    assert (std_equal (rev dotWallet) (rev (name ++ dotWallet)) = true) as ->
      by (apply std_equal_rev_suffix; by exists name).
    rewrite (find_last_of_app x2e name dotWallet 0) by done.
    unfold substr. rewrite Nat.add_0_r, !drop_0, take_app_length. done.
  - intros fileName Hname Hlen Hno. unfold getPrompt. rewrite Hname.
    rewrite String.list_byte_of_string_of_list_byte.
    destruct (std_equal (rev dotWallet) (rev fileName)) eqn:Heq; [|done].
    by apply std_equal_rev_suffix in Heq.
  - unfold getPrompt.
    set (walletName := if std_equal _ _ then _ else _).
    unfold substr. rewrite !length_app, length_take.
    change (length [x5b]) with 1%nat. change (length [x20]) with 1%nat.
    change (length [x5d; x3a; x20]) with 3%nat. lia.
Qed.

(** X22. What the prompts for an address, a payment ID and a hash
    return is the word [cancel], or (for the payment ID) the empty
    string, or a line of the input, trimmed, that passed the validation
    of its kind; the lines left are a suffix of the input. *)
Theorem input_prompts_return_validated_lines
    (integratedAddressesAllowed cancelAllowed : bool) (stdin : list string) :
  (let result := getAddress integratedAddressesAllowed cancelAllowed stdin in
   (result.1 = "cancel"%string
    ∨ ∃ line, line ∈ stdin ∧ result.1 = trim line
              ∧ validateAddresses [result.1] integratedAddressesAllowed = SUCCESS)
   ∧ result.2 `suffix_of` stdin)
  ∧ (let result := getPaymentID cancelAllowed stdin in
     (result.1 = "cancel"%string ∨ result.1 = EmptyString
      ∨ ∃ line, line ∈ stdin ∧ result.1 = trim line
                ∧ validatePaymentID result.1 = SUCCESS)
     ∧ result.2 `suffix_of` stdin)
  ∧ (let result := getHash cancelAllowed stdin in
     (result.1 = "cancel"%string
      ∨ ∃ line, line ∈ stdin ∧ result.1 = trim line
                ∧ validateHash result.1 = SUCCESS)
     ∧ result.2 `suffix_of` stdin).
Proof.
  cbv zeta. split; [|split].
  - induction stdin as [|line stdin IH]; simpl; [by split; [left|]|].
    destruct (decide (trim line = EmptyString)) as [Hempty|Hne].
    + destruct IH as [[Hc|(l & Hl & Ht & Hv)] Hs];
        (split; [|by apply suffix_cons_r]);
        [by left | right; exists l; split; [by right | done]].
    + destruct (bool_decide (trim line = "cancel"%string) && cancelAllowed) eqn:Hcancel.
      * apply andb_true_iff in Hcancel as [Hc _]. apply bool_decide_eq_true in Hc.
        simpl. split; [by left | by apply suffix_cons_r].
      * destruct (decide (validateAddresses [trim line] integratedAddressesAllowed
                          ≠ SUCCESS)) as [Hbad|Hgood].
        -- destruct IH as [[Hc|(l & Hl & Ht & Hv)] Hs];
             (split; [|by apply suffix_cons_r]);
             [by left | right; exists l; split; [by right | done]].
        -- simpl. split; [|by apply suffix_cons_r].
           right. exists line. split; [by left|]. split; [done|].
           by destruct (decide (validateAddresses [trim line]
                                  integratedAddressesAllowed = SUCCESS)).
  - induction stdin as [|line stdin IH]; simpl; [by split; [left|]|].
    destruct (bool_decide (trim line = "cancel"%string) && cancelAllowed) eqn:Hcancel.
    + apply andb_true_iff in Hcancel as [Hc _]. apply bool_decide_eq_true in Hc.
      simpl. split; [by left | by apply suffix_cons_r].
    + destruct (decide (trim line = EmptyString)) as [Hempty|Hne].
      * simpl. split; [by right; left | by apply suffix_cons_r].
      * destruct (decide (validatePaymentID (trim line) ≠ SUCCESS)) as [Hbad|Hgood].
        -- destruct IH as [[Hc|[He|(l & Hl & Ht & Hv)]] Hs];
             (split; [|by apply suffix_cons_r]);
             [by left | by right; left
             | right; right; exists l; split; [by right | done]].
        -- simpl. split; [|by apply suffix_cons_r].
           right. right. exists line. split; [by left|]. split; [done|].
           by destruct (decide (validatePaymentID (trim line) = SUCCESS)).
  - induction stdin as [|line stdin IH]; simpl; [by split; [left|]|].
    destruct (bool_decide (trim line = "cancel"%string) && cancelAllowed) eqn:Hcancel.
    + apply andb_true_iff in Hcancel as [Hc _]. apply bool_decide_eq_true in Hc.
      simpl. split; [by left | by apply suffix_cons_r].
    + destruct (decide (validateHash (trim line) ≠ SUCCESS)) as [Hbad|Hgood].
      * destruct IH as [[Hc|(l & Hl & Ht & Hv)] Hs];
          (split; [|by apply suffix_cons_r]);
          [by left | right; exists l; split; [by right | done]].
      * simpl. split; [|by apply suffix_cons_r].
        right. exists line. split; [by left|]. split; [done|].
        by destruct (decide (validateHash (trim line) = SUCCESS)).
Qed.

(** X23. [getAmountToAtomic] returns [(false, 0)] (the input ended, or
    was cancelled) or [(true, amount)] where [amount] is at least the
    minimum send and is what [std::stoull] parsed from a line of the
    input with no more decimal places than the coin has, commas and the
    decimal point removed and zeros appended. *)
Theorem getAmountToAtomic_respects_limits (cancelAllowed : bool)
    (stdin : list string) :
  let result := getAmountToAtomic cancelAllowed stdin in
  (result.1.1 = false → result.1.2 = 0)
  ∧ (result.1.1 = true →
     minimumSend ≤ result.1.2
     ∧ ∃ line, line ∈ stdin
               ∧ (decimalLengthOf (removeCharFromString (trim line) ","%char)
                  ≤ numDecimalPlaces)%nat
               ∧ stoull (atomicText line) = Parsed result.1.2)
  ∧ result.2 `suffix_of` stdin.
Proof.
  cbv zeta. induction stdin as [|line stdin IH]; simpl; [done|].
  assert (∀ r : bool * N * list string,
            ((r.1.1 = false → r.1.2 = 0)
             ∧ (r.1.1 = true →
                minimumSend ≤ r.1.2
                ∧ ∃ l, l ∈ stdin
                       ∧ (decimalLengthOf (removeCharFromString (trim l) ","%char)
                          ≤ numDecimalPlaces)%nat
                       ∧ stoull (atomicText l) = Parsed r.1.2)
             ∧ r.2 `suffix_of` stdin) →
            (r.1.1 = false → r.1.2 = 0)
            ∧ (r.1.1 = true →
               minimumSend ≤ r.1.2
               ∧ ∃ l, l ∈ line :: stdin
                      ∧ (decimalLengthOf (removeCharFromString (trim l) ","%char)
                         ≤ numDecimalPlaces)%nat
                      ∧ stoull (atomicText l) = Parsed r.1.2)
             ∧ r.2 `suffix_of` line :: stdin) as Hnext.
  { intros r (Hf & Ht & Hs). split; [done|]. split; [|by apply suffix_cons_r].
    intros Htrue. destruct (Ht Htrue) as (Hmin & l & Hl & Hd & Hp).
    split; [done|]. exists l. split; [by right | done]. }
  destruct (decide (line = EmptyString)); [by apply Hnext|].
  destruct (bool_decide (_ = "cancel"%string) && cancelAllowed).
  { simpl. split; [done|]. split; [done | by apply suffix_cons_r]. }
  destruct (Nat.ltb_spec numDecimalPlaces
              (decimalLengthOf (removeCharFromString (trim line) ","%char)))
    as [Hmany|Hfew]; [by apply Hnext|].
  fold (atomicText line).
  destruct (stoull (atomicText line)) as [amount| |] eqn:Hparsed;
    [|by apply Hnext|by apply Hnext].
  destruct (N.ltb_spec amount minimumSend) as [Hlow|Hok]; [by apply Hnext|].
  simpl. split; [done|]. split; [|by apply suffix_cons_r].
  intros _. split; [done|]. exists line. split; [by left | done].
Qed.

(** X24. [getHeight] returns 0 when the input has ended or the line is
    empty once its commas are removed, and otherwise only a value
    [std::stoull] parsed from a line of the input without its commas:
    lines that do not parse are skipped. *)
Theorem getHeight_defaults_to_zero (stdin : list string) :
  getHeight [] = (0, [])
  ∧ (∀ line rest, removeCharFromString line ","%char = EmptyString →
       getHeight (line :: rest) = (0, rest))
  ∧ ((getHeight stdin).1 = 0
     ∨ ∃ line, line ∈ stdin
               ∧ stoull (removeCharFromString line ","%char)
                 = Parsed (getHeight stdin).1).
Proof.
  split; [done|]. split.
  - intros line rest Hempty. simpl. by rewrite Hempty.
  - induction stdin as [|line stdin IH]; simpl; [by left|].
    destruct (decide (removeCharFromString line ","%char = EmptyString)); [by left|].
    destruct (stoull (removeCharFromString line ","%char)) as [height| |] eqn:Hparsed.
    + right. exists line. split; [by left | done].
    + destruct IH as [?|(l & Hl & Hp)]; [by left | right; exists l; split; [by right|done]].
    + destruct IH as [?|(l & Hl & Hp)]; [by left | right; exists l; split; [by right|done]].
Qed.

End MoreProperties.

(** * The further properties on the reference implementation *)

(** X1 on a buffer that starts with the identifier. *)
Lemma hasMagicIdentifier_decides_prefix_witness :
  (hasMagicIdentifier [x57; x41; x01] [x57; x41] WALLET_FILE_CORRUPTED WRONG_PASSWORD).1
  = SUCCESS.
Proof.
  destruct (hasMagicIdentifier_decides_prefix [x57; x41; x01] [x57; x41]
              WALLET_FILE_CORRUPTED WRONG_PASSWORD) as [Hiff _];
    [discriminate | discriminate |].
  apply Hiff. exists [x01]. reflexivity.
Defined.


(** X3 on a disk that cannot be written. *)
Lemma saveWalletJSONToDisk_replaces_file_witness :
  saveWalletJSONToDisk Toy.readOnlyDisk [x7b; x7d] "wallet.bin" "hunter2" Toy.sampleSalt
  = (INVALID_WALLET_FILENAME, Toy.readOnlyDisk).
Proof.
  rewrite (saveWalletJSONToDisk_replaces_file Toy.readOnlyDisk [x7b; x7d]
             "wallet.bin" "hunter2" Toy.sampleSalt).
  reflexivity.
Defined.

(** X4: the salt is read back from the sample file. *)
Lemma encodeWallet_salt_in_clear_witness :
  length Toy.sampleSalt = 16%nat
  ∧ take 16 (drop 6 (encodeWallet (unsafeToJSON Toy.sampleWallet) "hunter2"
                       Toy.sampleSalt)) = Toy.sampleSalt.
Proof.
  split; [reflexivity|].
  exact (proj1 (proj2 (encodeWallet_salt_in_clear (unsafeToJSON Toy.sampleWallet)
                         "hunter2" Toy.sampleSalt eq_refl))).
Defined.


(** X6 on the empty file. *)
Lemma decodeWallet_short_file_witness :
  decodeWallet [] "hunter2" = decodeWallet [] "wrong".
Proof.
  apply (proj2 (decodeWallet_short_file [] "wrong" ltac:(simpl; lia))).
Defined.

(** X7: the wallet with a prepared transaction is saved and opened; the
    cache of the opened wallet is empty. *)
Lemma save_then_openWallet_witness :
  openWallet (save Toy.preparedWallet Toy.emptyDisk Toy.sampleSalt).2
    "wallet.bin" "hunter2" "localhost" 11898 false
  = (SUCCESS,
     Some (mkWalletBackend "wallet.bin" "hunter2" [] Toy.sampleSubWallets
             Toy.sampleSynchronizer ∅)).
Proof.
  refine (proj2 (save_then_openWallet Toy.preparedWallet Toy.emptyDisk Toy.sampleSalt
                   "localhost" 11898 false _ _ _ _ _ _)).
  - reflexivity.
  - reflexivity.
  - vm_compute. reflexivity.
  - vm_compute. reflexivity.
  - eexists. split; [reflexivity | vm_compute; reflexivity].
  - eexists. split; [reflexivity | vm_compute; reflexivity].
Defined.

(** X8: the sample wallet under a new password. *)
Lemma changePassword_then_openWallet_witness :
  (openWallet
     (changePassword Toy.sampleWallet "correct horse" Toy.emptyDisk Toy.sampleSalt).2
     "wallet.bin" "correct horse" "localhost" 11898 false).1
  = SUCCESS.
Proof.
  exact (f_equal fst
           (proj2 (changePassword_then_openWallet Toy.sampleWallet "correct horse"
                     Toy.emptyDisk Toy.sampleSalt "localhost" 11898 false
                     ltac:(discriminate) eq_refl eq_refl
                     ltac:(vm_compute; reflexivity) ltac:(vm_compute; reflexivity)
                     ltac:(eexists; split; [reflexivity | vm_compute; reflexivity])
                     ltac:(eexists; split; [reflexivity | vm_compute; reflexivity])))).
Defined.


(** X10: the view key 0 does not validate. *)
Lemma failed_import_leaves_no_file_witness :
  importWalletFromKeys Toy.emptyDisk 7 0 "wallet.bin" "hunter2" 5
    "localhost" 11898 false Toy.sampleSalt
  = (OTHER_ERROR 1, None, Toy.emptyDisk).
Proof.
  refine (proj1 (proj1 (proj2 (failed_import_leaves_no_file Toy.emptyDisk
                                 "wallet.bin" "hunter2" 5 "localhost" 11898 false
                                 Toy.sampleSalt eq_refl eq_refl)) 7 0) _).
  vm_compute. discriminate.
Defined.

(** X11: the mnemonic of the key 7. *)
Lemma importWalletFromSeed_builds_from_seed_witness :
  ∃ wallet fs',
    importWalletFromSeed Toy.emptyDisk "111;" "wallet.bin" "hunter2" 5
      "localhost" 11898 false Toy.sampleSalt = (SUCCESS, Some wallet, fs')
    ∧ Toy.spendKeys (m_subWallets wallet) = [(1007, 7)]
    ∧ Toy.privateViewKey (m_subWallets wallet) = 15.
Proof.
  destruct (importWalletFromSeed_builds_from_seed Toy.emptyDisk "111;" "wallet.bin"
              "hunter2" 5 "localhost" 11898 false Toy.sampleSalt 7)
    as (wallet & fs' & Himport & _ & _ & Hsw & _);
    [reflexivity | reflexivity | vm_compute; reflexivity | vm_compute; reflexivity |].
  exists wallet, fs'. split; [exact Himport|].
  rewrite Hsw. split; reflexivity.
Defined.

(** X12: the seed of the sample wallet gives its keys back. *)
Lemma exported_seed_recovers_keys_witness :
  ∃ wallet fs',
    importWalletFromSeed Toy.emptyDisk
      (getMnemonicSeedForAddress Toy.sampleWallet (Toy.addressOf 1007)).2
      "restored.bin" "hunter2" 0 "localhost" 11898 false Toy.sampleSalt
    = (SUCCESS, Some wallet, fs')
    ∧ Toy.privateViewKey (m_subWallets wallet)
      = Toy.privateViewKey Toy.sampleSubWallets.
Proof.
  destruct (exported_seed_recovers_keys Toy.sampleWallet (Toy.addressOf 1007)
              (getMnemonicSeedForAddress Toy.sampleWallet (Toy.addressOf 1007)).2
              Toy.emptyDisk "restored.bin" "hunter2" 0 "localhost" 11898 false
              Toy.sampleSalt)
    as (wallet & fs' & Himport & Hsw);
    [vm_compute; reflexivity | vm_compute; reflexivity | vm_compute; reflexivity
    | reflexivity | reflexivity |].
  exists wallet, fs'. split; [exact Himport|].
  rewrite Hsw. reflexivity.
Defined.

(** X13: the daemon refuses the transaction, which stays cached. *)
Lemma sendPreparedTransaction_only_removes_witness :
  m_preparedTransactions
    (sendPreparedTransaction (set_daemon Toy.preparedWallet [OTHER_ERROR 9]) 43).2
  = {[ 43 := (43, 42) ]}.
Proof.
  refine (proj1 (proj2 (sendPreparedTransaction_only_removes
                          (set_daemon Toy.preparedWallet [OTHER_ERROR 9]) 43)) _ _).
  - vm_compute. discriminate.
  - vm_compute. discriminate.
Defined.

(** X14: the cached transaction is removed once. *)
Lemma removePreparedTransaction_reports_and_is_idempotent_witness :
  (removePreparedTransaction Toy.preparedWallet 43).1 = true
  ∧ (removePreparedTransaction (removePreparedTransaction Toy.preparedWallet 43).2 43).1
    = false.
Proof.
  destruct (removePreparedTransaction_reports_and_is_idempotent Toy.preparedWallet 43)
    as (Hreport & _ & _ & Htwice).
  split.
  - apply Hreport. vm_compute. eexists. reflexivity.
  - rewrite Htwice. reflexivity.
Defined.

(** X15: the transaction prepared for 42 is the one sent. *)
Lemma prepare_then_send_witness :
  m_preparedTransactions
    (sendTransactionBasic Toy.sampleWallet "TRTL" 42 EmptyString false false 0).2
  !! 43 = Some (43, 42)
  ∧ (sendPreparedTransaction
       (sendTransactionBasic Toy.sampleWallet "TRTL" 42 EmptyString false false 0).2
       43).1 = (SUCCESS, 43).
Proof.
  pose proof (prepare_then_send Toy.sampleWallet "TRTL" 42 EmptyString
                false false 0 SUCCESS 43 (43, 42)
                (sendTransactionBasic Toy.sampleWallet "TRTL" 42 EmptyString
                   false false 0).2) as Hprepared.
  destruct Hprepared as [_ Hprepared]; [vm_compute; reflexivity|].
  destruct (Hprepared eq_refl eq_refl) as [Hin Hsend].
  split; [exact Hin|]. rewrite Hsend. reflexivity.
Defined.

(** X16: a scan of the range from 10 to 12. *)
Lemma scanRange_is_rewind_with_end_witness :
  m_walletSynchronizer
    (scanRange Toy.sampleWallet 10 12 Toy.emptyDisk Toy.sampleSalt).1
  = Toy.mkWalletSynchronizer 10 0 12.
Proof.
  rewrite (proj1 (proj2 (scanRange_is_rewind_with_end Toy.sampleWallet 10 12
                           Toy.emptyDisk Toy.sampleSalt))).
  reflexivity.
Defined.

(** X17: a reset on a disk that cannot be written. *)
Lemma reset_and_rewind_persist_witness :
  (reset Toy.preparedWallet 10 0 Toy.readOnlyDisk Toy.sampleSalt).2 = Toy.readOnlyDisk
  ∧ m_preparedTransactions
      (reset Toy.preparedWallet 10 0 Toy.readOnlyDisk Toy.sampleSalt).1
    = {[ 43 := (43, 42) ]}.
Proof.
  destruct (reset_and_rewind_persist Toy.preparedWallet 10 0 Toy.readOnlyDisk
              Toy.sampleSalt _ (or_introl eq_refl))
    as (_ & _ & Hcache & _ & Hdisk).
  split; [apply Hdisk; reflexivity | exact Hcache].
Defined.

(** X18: the key 7 is in the sample wallet already. *)
Lemma failed_import_keeps_synchronizer_witness :
  m_walletSynchronizer (importSubWallet Toy.sampleWallet 7 10).2
  = Toy.sampleSynchronizer.
Proof.
  refine (proj1 (failed_import_keeps_synchronizer Toy.sampleWallet 10 _
                   (or_introl (ex_intro _ 7 eq_refl))) _).
  vm_compute. discriminate.
Defined.

(** X19: a string that is not an address. *)
Lemma mnemonic_seed_empty_on_error_witness :
  getMnemonicSeedForAddress Toy.sampleWallet "junk" = (OTHER_ERROR 3, EmptyString).
Proof.
  refine (proj1 (proj2 (mnemonic_seed_empty_on_error Toy.sampleWallet "junk")) _).
  vm_compute. discriminate.
Defined.

(** X20: the history at heights 5, 10, 10, 15, cut at 10. *)
Lemma getTransactionsRange_adjacent_witness :
  getTransactionsRange Toy.blockHeight Toy.sampleWallet 5 16
  ≡ₚ getTransactionsRange Toy.blockHeight Toy.sampleWallet 5 10
     ++ getTransactionsRange Toy.blockHeight Toy.sampleWallet 10 16.
Proof.
  apply (proj2 (getTransactionsRange_adjacent Toy.blockHeight Toy.sampleWallet 5 10 16));
    lia.
Defined.

(** X21: the wallet file [my.savings.wallet]. *)
Lemma getPrompt_strips_extension_witness :
  String.string_of_list_byte
    (getPrompt (mkWalletBackend "my.savings.wallet" "hunter2" [] Toy.sampleSubWallets
                  Toy.sampleSynchronizer ∅ : Toy.Wallet))
  = "[TRTL my.savings]: "%string.
Proof.
  rewrite (proj1 (getPrompt_strips_extension
                    (mkWalletBackend "my.savings.wallet" "hunter2" []
                       Toy.sampleSubWallets Toy.sampleSynchronizer ∅ : Toy.Wallet))
             (String.list_byte_of_string "my.savings") eq_refl).
  reflexivity.
Defined.

(** X22: a blank line, a line that is no address, an address. *)
Lemma input_prompts_return_validated_lines_witness :
  validateAddresses
    [(getAddress false false ["  "; "junk"; " T111; "; "more"]%string).1] false
  = SUCCESS.
Proof.
  destruct (proj1 (proj1 (input_prompts_return_validated_lines false false
                            ["  "; "junk"; " T111; "; "more"]%string)))
    as [Hcancel | (line & _ & _ & Hvalid)].
  - vm_compute in Hcancel. discriminate Hcancel.
  - exact Hvalid.
Defined.

(** X23: three decimal places, no number, less than the minimum, then
    12.5 coins. *)
Lemma getAmountToAtomic_respects_limits_witness :
  (getAmountToAtomic true ["1.234"; "abc"; "0"; "12.5"]%string).1.1 = true
  ∧ minimumSend ≤ (getAmountToAtomic true ["1.234"; "abc"; "0"; "12.5"]%string).1.2.
Proof.
  split; [reflexivity|].
  apply (proj1 (proj2 (getAmountToAtomic_respects_limits true
                         ["1.234"; "abc"; "0"; "12.5"]%string))).
  reflexivity.
Defined.

(** X24: a height with a thousands separator. *)
Lemma getHeight_defaults_to_zero_witness :
  getHeight [","; "200,000"]%string = (0, ["200,000"%string]).
Proof.
  apply (proj1 (proj2 (getHeight_defaults_to_zero [])) ","%string ["200,000"%string]).
  reflexivity.
Defined.
